(** * Configuration utilities of py-junos-eznc: [jnpr.junos.utils.config.Config]

    A shallow embedding of [lib/jnpr/junos/utils/config.py] and the proofs of
    its specification.  The module is Python 2 code: text is a byte string,
    keyword arguments arrive in a dict ([kvargs]), and every method talks to
    the device through [self.rpc].  Dicts are [gmap string value], the remote
    calls made are recorded in a trace, exceptions are a result type. *)

From Stdlib Require Import ZArith Ascii String List Bool Lia.
From stdpp Require Import base option list strings gmap pretty.

Set Warnings "-register-all".
Local Open Scope string_scope.
Local Open Scope Z_scope.

(** ** Python values *)

(** An [lxml.etree._Element]: tag, text and child elements.  Attributes and
    tails are never inspected by this module. *)
Inductive xml : Type :=
| Element (tag : string) (text : option string) (children : list xml).

(** A [jinja2.Template]: [filename] is [None] for a template that was not
    loaded from a file. *)
Record Template : Type := mkTemplate {
  filename : option string;
  source : string
}.

Inductive value : Type :=
| VNone
| VBool (b : bool)
| VInt (n : Z)
| VStr (s : string)
| VElem (e : xml)
| VDict (d : gmap string value)
| VTemplate (t : Template).

Definition xml_tag (e : xml) : string := let 'Element t _ _ := e in t.
Definition xml_text (e : xml) : option string := let 'Element _ t _ := e in t.
Definition xml_children (e : xml) : list xml := let 'Element _ _ c := e in c.

(** [elem.find(tag)] for a one-step path: the first child with that tag. *)
Definition xml_find (tag : string) (e : xml) : option xml :=
  List.find (fun c => String.eqb (xml_tag c) tag) (xml_children e).

(** [elem.find('a/b')]: the first [b] child of an [a] child, in document order. *)
Definition xml_find2 (a b : string) (e : xml) : option xml :=
  List.find (fun c => String.eqb (xml_tag c) b)
    (List.concat (List.map xml_children
       (List.filter (fun c => String.eqb (xml_tag c) a) (xml_children e)))).

(** [elem.findtext('a/b')]: the text of the element found ('' when it has
    none), [None] when nothing is found. *)
Definition xml_findtext2 (a b : string) (e : xml) : value :=
  match xml_find2 a b e with
  | Some c => VStr (default "" (xml_text c))
  | None => VNone
  end.

Definition opt_str (o : option string) : value :=
  match o with Some s => VStr s | None => VNone end.

(** Truth value of an object, as [if x:] tests it. *)
Definition truthy (v : value) : bool :=
  match v with
  | VNone => false
  | VBool b => b
  | VInt n => negb (n =? 0)
  | VStr s => negb (String.eqb s "")
  | VElem e => match xml_children e with [] => false | _ => true end
  | VDict d => negb (bool_decide (d = ∅))
  | VTemplate _ => true
  end.

(** [True == v]: booleans compare as the integers 0 and 1. *)
Definition eq_True (v : value) : bool :=
  match v with
  | VBool b => b
  | VInt n => n =? 1
  | _ => false
  end.

(** [v is True]: identity with the singleton [True]. *)
Definition is_True (v : value) : bool :=
  match v with
  | VBool b => b
  | _ => false
  end.

(** [v == 'lit'] for a string literal. *)
Definition eq_str (v : value) (lit : string) : bool :=
  match v with
  | VStr s => String.eqb s lit
  | _ => false
  end.

(** [isinstance(v, str)] *)
Definition is_str (v : value) : bool :=
  match v with VStr _ => true | _ => false end.

(** [str(v)].  Objects whose [str] shows a memory address or a dict's
    iteration order get it from [repr_obj]. *)
Definition py_str (repr_obj : value → string) (v : value) : string :=
  match v with
  | VNone => "None"
  | VBool true => "True"
  | VBool false => "False"
  | VInt n => pretty n
  | VStr s => s
  | _ => repr_obj v
  end.

(** [d.get(k)] and [d.get(k, dflt)] *)
Definition dict_get (d : gmap string value) (k : string) : value :=
  default VNone (d !! k).
Definition dict_get_default (d : gmap string value) (k : string) (dflt : value) : value :=
  default dflt (d !! k).

(** ** Exceptions *)

(** Modelled from the spec: the classes of [jnpr.junos.exception], which is
    not part of the sources at hand.  [RpcError] is the structured protocol
    error carrying the issued command, the response and the parsed
    sub-errors; the domain errors and the timeout error are its subclasses. *)
Inductive junos_class : Type :=
| RpcError | RpcTimeoutError | CommitError | ConfigLoadError | LockError | UnlockError.

Inductive exn : Type :=
| JunosExc (c : junos_class) (cmd rsp errs : value)
    (* an instance of RpcError or of one of its subclasses *)
| Builtin (name msg : string)
    (* ValueError, RuntimeError, AttributeError, TypeError, IOError, ... *)
| Foreign (name : string) (xml_attr : option value)
    (* any other subclass of Exception, such as ncclient's; [xml_attr] is
       its [xml] attribute when it has one *)
| NotException (name : string).
    (* KeyboardInterrupt, SystemExit: outside the Exception hierarchy *)

(** [except Exception] catches it *)
Definition is_Exception (e : exn) : bool :=
  match e with NotException _ => false | _ => true end.

(** [isinstance(err, RpcError)] *)
Definition is_RpcError (e : exn) : bool :=
  match e with JunosExc _ _ _ _ => true | _ => false end.

Definition is_RpcTimeoutError (e : exn) : bool :=
  match e with JunosExc RpcTimeoutError _ _ _ => true | _ => false end.

Definition class_name (e : exn) : string :=
  match e with
  | JunosExc RpcError _ _ _ => "RpcError"
  | JunosExc RpcTimeoutError _ _ _ => "RpcTimeoutError"
  | JunosExc CommitError _ _ _ => "CommitError"
  | JunosExc ConfigLoadError _ _ _ => "ConfigLoadError"
  | JunosExc LockError _ _ _ => "LockError"
  | JunosExc UnlockError _ _ _ => "UnlockError"
  | Builtin n _ | Foreign n _ | NotException n => n
  end.

Definition no_attribute (obj attr : string) : exn :=
  Builtin "AttributeError" ("'" +:+ obj +:+ "' object has no attribute '" +:+ attr +:+ "'").

Inductive result (A : Type) : Type :=
| Ok (a : A)
| Raise (e : exn).
Arguments Ok {A} a.
Arguments Raise {A} e.

(** [err.xml] *)
Definition exn_xml (e : exn) : result value :=
  match e with
  | Foreign _ (Some x) => Ok x
  | _ => Raise (no_attribute (class_name e) "xml")
  end.

(** [hasattr(err, 'xml') and isinstance(err.xml, etree._Element)] *)
Definition has_xml_element (e : exn) : bool :=
  match e with
  | Foreign _ (Some (VElem _)) => true
  | _ => false
  end.

(** ** Attribute access and methods on values *)

Definition type_name (v : value) : string :=
  match v with
  | VNone => "NoneType"
  | VBool _ => "bool"
  | VInt _ => "int"
  | VStr _ => "str"
  | VElem _ => "lxml.etree._Element"
  | VDict _ => "dict"
  | VTemplate _ => "Template"
  end.

(** [hay.find(needle)] on byte strings: the lowest index, or -1. *)
Fixpoint str_find (hay needle : string) : Z :=
  if String.prefix needle hay then 0
  else match hay with
       | EmptyString => -1
       | String _ rest =>
           let r := str_find rest needle in
           if r =? -1 then -1 else r + 1
       end.

(** [v.find(tag)]: elements and strings have a [find] method. *)
Definition py_find (v : value) (tag : string) : result value :=
  match v with
  | VElem e => Ok (match xml_find tag e with Some c => VElem c | None => VNone end)
  | VStr s => Ok (VInt (str_find s tag))
  | _ => Raise (no_attribute (type_name v) "find")
  end.

(** [v.text] *)
Definition py_text (v : value) : result value :=
  match v with
  | VElem e => Ok (opt_str (xml_text e))
  | _ => Raise (no_attribute (type_name v) "text")
  end.

(** [v.findtext('a/b')] *)
Definition py_findtext2 (v : value) (a b : string) : result value :=
  match v with
  | VElem e => Ok (xml_findtext2 a b e)
  | _ => Raise (no_attribute (type_name v) "findtext")
  end.

Definition is_None (v : value) : bool :=
  match v with VNone => true | _ => false end.

(** ** Remote calls and the environment *)

(** One call through [self.rpc]: the procedure name, its positional and its keyword arguments. *)
Record rpc_call : Type := Rpc {
  rpc_name : string;
  rpc_args : list value;
  rpc_kwargs : gmap string value
}.

(** What lies outside the module: the device behind [self.rpc], the
    filesystem, lxml's parser, the Jinja2 engine and the helpers of
    [jnpr.junos.jxml]. *)
Record Env : Type := mkEnv {
  rpc_exec : rpc_call → result value;
  file_read : string → result string;          (* open(path, 'rU').read() *)
  etree_XML : string → result xml;             (* etree.XML(text) *)
  dev_Template : value → result value;         (* self.dev.Template(path) *)
  template_render : Template → value → result string;  (* template.render(vars) *)
  JXML_remove_namespaces : value → result value;
  JXML_rpc_error : value → result value;
  repr_obj : value → string
}.

(** A computation: it extends the trace of remote calls and returns or raises. *)
Definition M (A : Type) : Type := list rpc_call → result A * list rpc_call.

Definition ret {A} (a : A) : M A := fun t => (Ok a, t).
Definition raise {A} (e : exn) : M A := fun t => (Raise e, t).
Definition lift {A} (r : result A) : M A := fun t => (r, t).
Definition bind {A B} (m : M A) (k : A → M B) : M B :=
  fun t => match m t with
           | (Ok a, t') => k a t'
           | (Raise e, t') => (Raise e, t')
           end.

Notation "x <- m ;; k" := (bind m (fun x => k))
  (at level 20, m at level 99, k at level 200, only parsing).

(** [try: body / except ...: handler] followed by [rest], for handlers that
    all end in [return] or [raise]: [rest] runs only when [body] did not
    raise.  The handler sees every exception and re-raises what its
    [except] clauses do not catch. *)
Definition try_catch {A B} (body : M A) (handler : exn → M B) (rest : A → M B) : M B :=
  fun t => match body t with
           | (Ok a, t') => rest a t'
           | (Raise e, t') => handler e t'
           end.

Definition call_rpc (E : Env) (c : rpc_call) : M value :=
  fun t => (rpc_exec E c, (t ++ [c])%list).

(** Run from an empty trace. *)
Definition run {A} (m : M A) : result A * list rpc_call := m [].

(** ** commit *)

Definition commit_rpc_args (E : Env) (kvargs : gmap string value) : gmap string value :=
  let rpc_args : gmap string value := ∅ in
  let comment := dict_get kvargs "comment" in
  let rpc_args := if truthy comment then <["log" := comment]> rpc_args else rpc_args in
  let confirm := dict_get kvargs "confirm" in
  let rpc_args :=
    if truthy confirm then
      let rpc_args := <["confirmed" := VBool true]> rpc_args in
      let confirm_val := py_str (repr_obj E) confirm in
      if negb (String.eqb "True" confirm_val)
      then <["confirm-timeout" := VStr confirm_val]> rpc_args
      else rpc_args
    else rpc_args in
  let timeout := dict_get kvargs "timeout" in
  let rpc_args := if truthy timeout then <["dev_timeout" := timeout]> rpc_args else rpc_args in
  let rpc_args :=
    if truthy (dict_get kvargs "force_sync") then
      <["force-synchronize" := VBool true]> (<["synchronize" := VBool true]> rpc_args)
    else if truthy (dict_get kvargs "sync") then
      <["synchronize" := VBool true]> rpc_args
    else rpc_args in
  if truthy (dict_get kvargs "full") then <["full" := VBool true]> rpc_args else rpc_args.

Definition commit_rpc_varg (kvargs : gmap string value) : list value :=
  if truthy (dict_get kvargs "detail")
  then [VDict {["detail" := VStr "detail"]}]
  else [].

(** The [except] clauses shared by [commit] and [commit_check] for a
    structured protocol error: warnings only when the response has an
    [ok] child. *)
Definition on_rpc_error (cmd rsp : value) : M value :=
  found <- lift (py_find rsp "ok") ;;
  if negb (is_None found) then ret (VBool true)
  else raise (JunosExc CommitError cmd rsp VNone).

Definition commit (E : Env) (kvargs : gmap string value) : M value :=
  let rpc_args := commit_rpc_args E kvargs in
  let rpc_varg := commit_rpc_varg kvargs in
  let detail := dict_get kvargs "detail" in
  try_catch
    (call_rpc E (Rpc "commit_configuration" rpc_varg rpc_args))
    (fun err =>
       match err with
       | JunosExc RpcTimeoutError _ _ _ => raise err
       | JunosExc _ cmd rsp _ => on_rpc_error cmd rsp
       | Builtin _ _ | Foreign _ _ =>
           if has_xml_element err then
             x <- lift (exn_xml err) ;;
             raise (JunosExc CommitError VNone x VNone)
           else raise err
       | NotException _ => raise err
       end)
    (fun rsp => if truthy detail then ret rsp else ret (VBool true)).

(** ** commit_check *)

Definition commit_check (E : Env) : M value :=
  try_catch
    (call_rpc E (Rpc "commit_configuration" [] {["check" := VBool true]}))
    (fun err =>
       match err with
       | JunosExc _ cmd rsp _ => on_rpc_error cmd rsp
       | Builtin _ _ | Foreign _ _ =>
           x <- lift (exn_xml err) ;;
           lift (JXML_rpc_error E x)
       | NotException _ => raise err
       end)
    (fun _ => ret (VBool true)).

(** ** diff and rollback *)

Definition invalid_rollback (E : Env) (rb_id : Z) : exn :=
  Builtin "ValueError" ("Invalid rollback #" +:+ py_str (repr_obj E) (VInt rb_id)).

Definition diff (E : Env) (rb_id : Z) : M value :=
  if (rb_id <? 0) || (rb_id >? 49) then raise (invalid_rollback E rb_id)
  else
    rsp <- call_rpc E (Rpc "get_configuration"
             [VDict (<["compare" := VStr "rollback"]>
                    (<["rollback" := VStr (py_str (repr_obj E) (VInt rb_id))]>
                    {["format" := VStr "text"]}))] ∅) ;;
    out <- lift (py_find rsp "configuration-output") ;;
    diff_txt <- lift (py_text out) ;;
    ret (if eq_str diff_txt (String "010" "") then VNone else diff_txt).

Definition rollback (E : Env) (rb_id : Z) : M value :=
  if (rb_id <? 0) || (rb_id >? 49) then raise (invalid_rollback E rb_id)
  else
    _ <- call_rpc E (Rpc "load_configuration"
           [VDict (<["compare" := VStr "rollback"]>
                  {["rollback" := VStr (py_str (repr_obj E) (VInt rb_id))]})] ∅) ;;
    ret (VBool true).

(** ** lock and unlock *)

Definition lock_like (E : Env) (name : string) (cls : junos_class) : M value :=
  try_catch
    (call_rpc E (Rpc name [] ∅))
    (fun err =>
       match err with
       | JunosExc _ _ rsp _ => raise (JunosExc cls VNone rsp VNone)
       | Builtin _ _ | Foreign _ _ =>
           x <- lift (exn_xml err) ;;
           clean <- lift (JXML_remove_namespaces E x) ;;
           raise (JunosExc cls VNone clean VNone)
       | NotException _ => raise err
       end)
    (fun _ => ret (VBool true)).

Definition lock (E : Env) : M value := lock_like E "lock_configuration" LockError.
Definition unlock (E : Env) : M value := lock_like E "unlock_configuration" UnlockError.

(** ** rescue *)

(** A bare [except:] catches everything. *)
Definition _rescue_get (E : Env) (format : value) : M value :=
  try_catch
    (got <- call_rpc E (Rpc "get_rescue_information" [] {["format" := format]}) ;;
     if eq_str format "text"
     then lift (py_findtext2 got "configuration-information" "configuration-output")
     else ret got)
    (fun _ => ret VNone)
    ret.

Definition _rescue_reload (E : Env) : M value :=
  try_catch
    (call_rpc E (Rpc "load_configuration" [VDict {["rescue" := VStr "rescue"]}] ∅))
    (fun _ => ret (VBool false))
    ret.

Definition _rescue_save (E : Env) : M value :=
  _ <- call_rpc E (Rpc "request_save_rescue_configuration" [] ∅) ;;
  ret (VBool true).

Definition _rescue_delete (E : Env) : M value :=
  _ <- call_rpc E (Rpc "request_delete_rescue_configuration" [] ∅) ;;
  ret (VBool true).

Definition _unsupported_action (action : string) : M value :=
  raise (Builtin "ValueError" ("unsupported action: " +:+ action)).

Definition rescue (E : Env) (action : string) (format : value) : M value :=
  if String.eqb action "get" then _rescue_get E format
  else if String.eqb action "save" then _rescue_save E
  else if String.eqb action "delete" then _rescue_delete E
  else if String.eqb action "reload" then _rescue_reload E
  else _unsupported_action action.

(** ** Regular expressions, as [re.search] decides them on byte strings *)

Inductive cset : Type :=
| CLit (c : ascii)                       (* a literal character *)
| CDot                                   (* [.]: anything but a newline *)
| CSpace                                 (* [\s] *)
| CWord                                  (* [\w] *)
| CRanges (rs : list (ascii * ascii)).   (* a bracket class, as inclusive ranges *)

Inductive regex : Type :=
| Eps
| Bol                                    (* [^] *)
| Eol                                    (* [$] *)
| Chr (c : cset)
| Seq (a b : regex)
| Alt (a b : regex)
| Star (a : regex).

Record flags : Type := Flags { multiline : bool; ignorecase : bool }.

Definition Plus (a : regex) : regex := Seq a (Star a).
Definition Cat (rs : list regex) : regex := fold_right Seq Eps rs.
Definition Lit (s : string) : regex :=
  Cat (List.map (fun c => Chr (CLit c)) (list_ascii_of_string s)).
Definition AnyOf (rs : list regex) : regex :=
  match rs with
  | [] => Eps
  | r :: rs' => fold_left Alt rs' r
  end.

Definition code (c : ascii) : N := N_of_ascii c.
Definition newline : ascii := "010"%char.

Definition in_range (lo hi c : ascii) : bool :=
  ((code lo <=? code c) && (code c <=? code hi))%N.

Definition is_space (c : ascii) : bool :=
  (((9 <=? code c) && (code c <=? 13)) || (code c =? 32))%N.

Definition is_word (c : ascii) : bool :=
  in_range "a" "z" c || in_range "A" "Z" c || in_range "0" "9" c || Ascii.eqb c "_".

Definition lower (c : ascii) : ascii :=
  if in_range "A" "Z" c then ascii_of_N (code c + 32) else c.

(** One character against one set.  Under IGNORECASE the character is
    lowered and compared with the lowered literal or range ends; the
    categories are not affected. *)
Definition cmatch (fl : flags) (cs : cset) (c : ascii) : bool :=
  match cs with
  | CLit l => if ignorecase fl then Ascii.eqb (lower c) (lower l) else Ascii.eqb c l
  | CDot => negb (Ascii.eqb c newline)
  | CSpace => is_space c
  | CWord => is_word c
  | CRanges rs =>
      if ignorecase fl
      then existsb (fun r => in_range (lower (fst r)) (lower (snd r)) (lower c)) rs
      else existsb (fun r => in_range (fst r) (snd r) c) rs
  end.

(** [^]: at the start of the text, and under MULTILINE also after a newline.
    [prev] is the character before the position, if any. *)
Definition at_bol (fl : flags) (prev : option ascii) : bool :=
  match prev with
  | None => true
  | Some c => multiline fl && Ascii.eqb c newline
  end.

(** [$]: at the end of the text or before its final newline, and under
    MULTILINE before any newline.  [s] is the text from the position on. *)
Definition at_eol (fl : flags) (s : list ascii) : bool :=
  match s with
  | [] => true
  | c :: s' => Ascii.eqb c newline && (multiline fl || match s' with [] => true | _ => false end)
  end.

(** The iterations of a star: stop here, or match the body once more and
    go on from a strictly later position.  [step] matches the body. *)
Fixpoint star_loop
    (step : option ascii → list ascii → (option ascii → list ascii → bool) → bool)
    (k : option ascii → list ascii → bool)
    (fuel : nat) (prev : option ascii) (s : list ascii) {struct fuel} : bool :=
  k prev s ||
  match fuel with
  | O => false
  | S fuel' =>
      step prev s (fun p s' => (length s' <? length s)%nat && star_loop step k fuel' p s')
  end.

(** Backtracking matcher: [rmatch fl r prev s k] holds when [r] matches a
    prefix of [s] after which the continuation [k] accepts.  An iteration
    of a star that consumes nothing is not repeated. *)
Fixpoint rmatch (fl : flags) (r : regex) (prev : option ascii) (s : list ascii)
    (k : option ascii → list ascii → bool) {struct r} : bool :=
  match r with
  | Eps => k prev s
  | Bol => at_bol fl prev && k prev s
  | Eol => at_eol fl s && k prev s
  | Chr cs =>
      match s with
      | [] => false
      | c :: s' => cmatch fl cs c && k (Some c) s'
      end
  | Seq a b => rmatch fl a prev s (fun p s' => rmatch fl b p s' k)
  | Alt a b => rmatch fl a prev s k || rmatch fl b prev s k
  | Star a => star_loop (rmatch fl a) k (length s) prev s
  end.

Fixpoint search_from (fl : flags) (r : regex) (prev : option ascii) (s : list ascii) : bool :=
  rmatch fl r prev s (fun _ _ => true) ||
  match s with
  | [] => false
  | c :: s' => search_from fl r (Some c) s'
  end.

(** [re.search(pattern, text, flags)] is not [None] *)
Definition re_search (fl : flags) (r : regex) (text : string) : bool :=
  search_from fl r None (list_ascii_of_string text).

Definition no_flags : flags := Flags false false.
Definition MULTILINE : flags := Flags true false.
Definition IGNORECASE : flags := Flags false true.

(** [r'^\s*<.*>$'] *)
Definition re_xml : regex :=
  Cat [Bol; Star (Chr CSpace); Lit "<"; Star (Chr CDot); Lit ">"; Eol].

(** [r'^\s*(set|delete|replace|rename)\s'] *)
Definition re_set : regex :=
  Cat [Bol; Star (Chr CSpace);
       AnyOf [Lit "set"; Lit "delete"; Lit "replace"; Lit "rename"];
       Chr CSpace].

(** [r'^[a-z:]*\s*\w+\s+{'] *)
Definition re_curly_open : regex :=
  Cat [Bol; Star (Chr (CRanges [("a", "z"); (":", ":")]%char)); Star (Chr CSpace);
       Plus (Chr CWord); Plus (Chr CSpace); Lit "{"].

(** [r'.*}\s*$'] *)
Definition re_curly_close : regex :=
  Cat [Star (Chr CDot); Lit "}"; Star (Chr CSpace); Eol].

(** *** What a pattern means

    The declarative reading of the patterns, against which the matcher is
    checked: [matches fl r prev w rest] says that [r] matches exactly the
    characters [w], in a text where [prev] is the character before [w] (if
    any) and [rest] is what follows it. *)

(** The character before the position reached after reading [w]. *)
Definition last_of (prev : option ascii) (w : list ascii) : option ascii :=
  match last w with
  | Some c => Some c
  | None => prev
  end.

Inductive matches (fl : flags) : regex → option ascii → list ascii → list ascii → Prop :=
| M_Eps p rest :
    matches fl Eps p [] rest
| M_Bol p rest :
    at_bol fl p = true → matches fl Bol p [] rest
| M_Eol p rest :
    at_eol fl rest = true → matches fl Eol p [] rest
| M_Chr cs c p rest :
    cmatch fl cs c = true → matches fl (Chr cs) p [c] rest
| M_Seq a b p w1 w2 rest :
    matches fl a p w1 (w2 ++ rest) →
    matches fl b (last_of p w1) w2 rest →
    matches fl (Seq a b) p (w1 ++ w2) rest
| M_AltL a b p w rest :
    matches fl a p w rest → matches fl (Alt a b) p w rest
| M_AltR a b p w rest :
    matches fl b p w rest → matches fl (Alt a b) p w rest
| M_Star0 a p rest :
    matches fl (Star a) p [] rest
| M_StarS a p w1 w2 rest :
    matches fl a p w1 (w2 ++ rest) →
    matches fl (Star a) (last_of p w1) w2 rest →
    matches fl (Star a) p (w1 ++ w2) rest.

(** [r] matches somewhere in [text]. *)
Definition found_in (fl : flags) (r : regex) (text : list ascii) : Prop :=
  ∃ pre w post : list ascii,
    text = (pre ++ w ++ post)%list ∧ matches fl r (last pre) w post.

(** A matching step that accepts more when its continuation does. *)
Definition monotone
    (step : option ascii → list ascii → (option ascii → list ascii → bool) → bool) : Prop :=
  ∀ p s k k', (∀ p' s', k p' s' = true → k' p' s' = true) →
    step p s k = true → step p s k' = true.

(** ** os.path.splitext (posixpath) *)

(** [s.rfind(c)]: the highest index of [c], or -1. *)
Fixpoint rfind_from (c : ascii) (s : string) (i last : Z) : Z :=
  match s with
  | EmptyString => last
  | String x s' => rfind_from c s' (i + 1) (if Ascii.eqb x c then i else last)
  end.
Definition rfind (c : ascii) (s : string) : Z := rfind_from c s 0 (-1).

(** [p[i:j]] for [0 <= i <= j] *)
Definition slice (p : string) (i j : Z) : string :=
  String.substring (Z.to_nat i) (Z.to_nat (j - i)) p.

(** The extension starts at the last dot of the last path component,
    unless only dots precede it there. *)
Definition splitext (p : string) : string * string :=
  let sepIndex := rfind "/" p in
  let dotIndex := rfind "." p in
  if (dotIndex >? sepIndex) &&
     existsb (fun c => negb (Ascii.eqb c "."))
       (list_ascii_of_string (slice p (sepIndex + 1) dotIndex))
  then (slice p 0 dotIndex, slice p dotIndex (Z.of_nat (String.length p)))
  else (p, "").

Definition os_path_splitext (path : value) : result (string * string) :=
  match path with
  | VStr p => Ok (splitext p)
  | _ => Raise (no_attribute (type_name path) "rfind")
  end.

(** ** load *)

(** [d[k]] *)
Definition dict_item (d : gmap string value) (k : string) : result value :=
  match d !! k with
  | Some v => Ok v
  | None => Raise (Builtin "KeyError" k)
  end.

(** [k in d] *)
Definition dict_has (d : gmap string value) (k : string) : bool :=
  match d !! k with Some _ => true | None => false end.

(** Lines 282-295: the default attributes, then [overwrite] and [merge]. *)
Definition load_xattrs_init (kvargs : gmap string value) : gmap string value :=
  let rpc_xattrs : gmap string value := ∅ in
  let rpc_xattrs := <["format" := VStr "xml"]> rpc_xattrs in
  let rpc_xattrs := <["action" := VStr "replace"]> rpc_xattrs in
  let overwrite := dict_get_default kvargs "overwrite" (VBool false) in
  if eq_True overwrite then <["action" := VStr "override"]> rpc_xattrs
  else if is_True (dict_get kvargs "merge") then delete "action" rpc_xattrs
  else rpc_xattrs.

Definition _lformat_byext (path : value) : result string :=
  match os_path_splitext path with
  | Raise e => Raise e
  | Ok (_, ext) =>
      if String.eqb ext ".xml" then Ok "xml"
      else if existsb (String.eqb ext) [".conf"; ".text"; ".txt"] then Ok "text"
      else if existsb (String.eqb ext) [".set"] then Ok "set"
      else Raise (Builtin "ValueError" ("Unknown file contents from extension: " +:+ ext))
  end.

Definition conflicting_args : exn :=
  Builtin "ValueError" "conflicting args, cannot use 'set' with 'overwrite'".

(** The helpers update [kvargs] and [rpc_xattrs] in place; here they return
    the updated pair. *)
Definition load_state : Type := gmap string value * gmap string value.

Definition _lset_format (overwrite : value) (kvargs rpc_xattrs : gmap string value)
    : result load_state :=
  match dict_item kvargs "format" with
  | Raise e => Raise e
  | Ok fmt =>
      if eq_str fmt "set" then
        if eq_True overwrite then Raise conflicting_args
        else
          let rpc_xattrs := <["action" := VStr "set"]> rpc_xattrs in
          let kvargs := <["format" := VStr "text"]> kvargs in
          Ok (kvargs, <["format" := VStr "text"]> rpc_xattrs)
      else Ok (kvargs, <["format" := fmt]> rpc_xattrs)
  end.

Definition _lset_fromfile (overwrite : value) (path : value)
    (kvargs rpc_xattrs : gmap string value) : result load_state :=
  if negb (dict_has kvargs "format") then
    match _lformat_byext path with
    | Raise e => Raise e
    | Ok fmt => _lset_format overwrite (<["format" := VStr fmt]> kvargs) rpc_xattrs
    end
  else Ok (kvargs, rpc_xattrs).

Definition _lset_from_rexp (rpc : string) (kvargs : gmap string value) : gmap string value :=
  if re_search MULTILINE re_xml rpc then <["format" := VStr "xml"]> kvargs
  else if re_search no_flags re_set rpc then <["format" := VStr "set"]> kvargs
  else if re_search IGNORECASE re_curly_open rpc && re_search no_flags re_curly_close rpc
  then <["format" := VStr "text"]> kvargs
  else kvargs.

Definition try_load (E : Env) (rpc_contents : value) (rpc_xattrs : gmap string value) : M value :=
  try_catch
    (call_rpc E (Rpc "load_config" [rpc_contents] rpc_xattrs))
    (fun err =>
       match err with
       | JunosExc _ cmd rsp errs => raise (JunosExc ConfigLoadError cmd rsp errs)
       | _ => raise err
       end)
    ret.

Definition cannot_resolve_format : exn :=
  Builtin "RuntimeError"
    ("Not able to resolve the config format " +:+
     "You must define the format of the contents explicitly " +:+
     "to the function. Ex: format='set'").

(** [etree.XML(text)] as a value *)
Definition parse_xml (E : Env) (text : string) : result value :=
  match etree_XML E text with
  | Ok e => Ok (VElem e)
  | Raise e => Raise e
  end.

(** [open(path, 'rU').read()] *)
Definition open_read (E : Env) (path : value) : result string :=
  match path with
  | VStr p => file_read E p
  | _ => Raise (Builtin "TypeError"
           ("coercing to Unicode: need string or buffer, " +:+ type_name path +:+ " found"))
  end.

(** [template.render(vars)] *)
Definition render (E : Env) (template vars : value) : result string :=
  match template with
  | VTemplate t => template_render E t vars
  | _ => Raise (no_attribute (type_name template) "render")
  end.

(** [template.filename] *)
Definition template_filename (template : value) : result value :=
  match template with
  | VTemplate t => Ok (opt_str (filename t))
  | _ => Raise (no_attribute (type_name template) "filename")
  end.

(** The tail shared by the three file-like sources: resolve the format
    from the path, parse structured content, transmit. *)
Definition load_from_text (E : Env) (overwrite path : value) (text : string)
    (kvargs rpc_xattrs : gmap string value) : M value :=
  st <- lift (_lset_fromfile overwrite path kvargs rpc_xattrs) ;;
  let '(kvargs, rpc_xattrs) := st in
  fmt <- lift (dict_item rpc_xattrs "format") ;;
  rpc_contents <- (if eq_str fmt "xml" then lift (parse_xml E text) else ret (VStr text)) ;;
  try_load E rpc_contents rpc_xattrs.

Definition load (E : Env) (vargs : list value) (kvargs : gmap string value) : M value :=
  let rpc_xattrs := load_xattrs_init kvargs in
  let overwrite := dict_get_default kvargs "overwrite" (VBool false) in
  st <- (if dict_has kvargs "format"
         then lift (_lset_format overwrite kvargs rpc_xattrs)
         else ret (kvargs, rpc_xattrs)) ;;
  let '(kvargs, rpc_xattrs) := st in
  match vargs with
  | rpc_contents :: _ =>
      match rpc_contents with
      | VStr text =>
          st <- (if negb (dict_has kvargs "format") then
                   let kvargs := _lset_from_rexp text kvargs in
                   if dict_has kvargs "format"
                   then lift (_lset_format overwrite kvargs rpc_xattrs)
                   else raise cannot_resolve_format
                 else ret (kvargs, rpc_xattrs)) ;;
          let '(kvargs, rpc_xattrs) := st in
          fmt <- lift (dict_item kvargs "format") ;;
          rpc_contents <- (if eq_str fmt "xml" then lift (parse_xml E text)
                           else ret (VStr text)) ;;
          try_load E rpc_contents rpc_xattrs
      | _ => try_load E rpc_contents rpc_xattrs
      end
  | [] =>
      match kvargs !! "path" with
      | Some path =>
          text <- lift (open_read E path) ;;
          load_from_text E overwrite path text kvargs rpc_xattrs
      | None =>
      match kvargs !! "template_path" with
      | Some path =>
          template <- lift (dev_Template E path) ;;
          text <- lift (render E template (dict_get_default kvargs "template_vars" (VDict ∅))) ;;
          load_from_text E overwrite path text kvargs rpc_xattrs
      | None =>
      match kvargs !! "template" with
      | Some template =>
          path <- lift (template_filename template) ;;
          text <- lift (render E template (dict_get_default kvargs "template_vars" (VDict ∅))) ;;
          load_from_text E overwrite path text kvargs rpc_xattrs
      | None => raise (Builtin "RuntimeError" "Unhandled load request")
      end end end
  end.

(** ** The request a load builds, in the words of the specification *)

(** Content-shape resolution: three tests, in this order. *)
Definition looks_like_xml (text : string) : bool := re_search MULTILINE re_xml text.
Definition looks_like_set (text : string) : bool := re_search no_flags re_set text.
Definition looks_like_curly (text : string) : bool :=
  re_search IGNORECASE re_curly_open text && re_search no_flags re_curly_close text.

Definition content_shape (text : string) : option string :=
  if looks_like_xml text then Some "xml"
  else if looks_like_set text then Some "set"
  else if looks_like_curly text then Some "text"
  else None.

(** *** The three content shapes, in plain terms *)

Definition all_space (w : list ascii) : Prop := Forall (λ c, is_space c = true) w.

(** Optional white space, then one of the four keywords, then a white
    space character. *)
Definition starts_with_set_keyword (text : list ascii) : Prop :=
  ∃ (ws : list ascii) (kw : string) (c : ascii) (rest : list ascii),
    text = (ws ++ list_ascii_of_string kw ++ c :: rest)%list ∧
    all_space ws ∧
    kw ∈ ["set"; "delete"; "replace"; "rename"] ∧
    is_space c = true.

(** A line that, after optional white space (which may span earlier blank
    lines), opens with [<] and closes with [>]. *)
Definition has_tag_line (text : list ascii) : Prop :=
  ∃ pre ws body post : list ascii,
    text = (pre ++ ws ++ "<"%char :: body ++ ">"%char :: post)%list ∧
    (pre = [] ∨ last pre = Some newline) ∧
    all_space ws ∧
    Forall (λ c, c ≠ newline) body ∧
    (post = [] ∨ head post = Some newline).

(** An identifier followed by white space and [{], possibly after a prefix
    of letters and colons and white space; and a [}] followed by nothing
    but white space. *)
Definition has_brace_block (text : list ascii) : Prop :=
  (∃ prefix ws1 word ws2 rest : list ascii,
     text = (prefix ++ ws1 ++ word ++ ws2 ++ "{"%char :: rest)%list ∧
     Forall (λ c, cmatch IGNORECASE (CRanges [("a", "z"); (":", ":")]%char) c = true) prefix ∧
     all_space ws1 ∧
     word ≠ [] ∧ Forall (λ c, is_word c = true) word ∧
     ws2 ≠ [] ∧ all_space ws2) ∧
  (∃ before ws : list ascii,
     text = (before ++ "}"%char :: ws)%list ∧ all_space ws).

(** The path whose extension resolves the format of a file-like source. *)
Definition source_path (kvargs : gmap string value) : option value :=
  match kvargs !! "path" with
  | Some p => Some p
  | None =>
      match kvargs !! "template_path" with
      | Some p => Some p
      | None =>
          match kvargs !! "template" with
          | Some (VTemplate t) => Some (opt_str (filename t))
          | _ => None
          end
      end
  end.

(** The resolved format: the explicit one, else the one the content shape
    gives for directly supplied text, else the one the extension gives.
    [None] when nothing resolves a format; the wire format is then the
    default. *)
Definition resolved_format (vargs : list value) (kvargs : gmap string value) : option value :=
  match kvargs !! "format" with
  | Some f => Some f
  | None =>
      match vargs with
      | VStr text :: _ => VStr <$> content_shape text
      | _ :: _ => None
      | [] =>
          match source_path kvargs with
          | Some p => match _lformat_byext p with Ok f => Some (VStr f) | Raise _ => None end
          | None => None
          end
      end
  end.

Definition is_set_style (fmt : option value) : bool :=
  match fmt with Some f => eq_str f "set" | None => false end.

Definition overwrite_requested (kvargs : gmap string value) : bool :=
  eq_True (dict_get_default kvargs "overwrite" (VBool false)).

Definition merge_requested (kvargs : gmap string value) : bool :=
  is_True (dict_get kvargs "merge").

(** The action marker of the specification; [None] is the omitted marker. *)
Definition spec_action (set_style overwrite merge : bool) : option value :=
  if set_style then Some (VStr "set")
  else if overwrite then Some (VStr "override")
  else if merge then None
  else Some (VStr "replace").

(** The format on the wire: set-style travels as text. *)
Definition wire_format (fmt : option value) : value :=
  match fmt with
  | Some f => if eq_str f "set" then VStr "text" else f
  | None => VStr "xml"
  end.

(** The content of a file-like source was obtained locally. *)
Definition content_obtained (E : Env) (kvargs : gmap string value) : Prop :=
  match kvargs !! "path" with
  | Some p => ∃ text, open_read E p = Ok text
  | None =>
      let vars := dict_get_default kvargs "template_vars" (VDict ∅) in
      match kvargs !! "template_path" with
      | Some p => ∃ t text, dev_Template E p = Ok t ∧ render E t vars = Ok text
      | None =>
          match kvargs !! "template" with
          | Some t => ∃ text, render E t vars = Ok text
          | None => False
          end
      end
  end.

(** ** The two operations that commit *)

Inductive commit_op : Type :=
| OpCommit (kvargs : gmap string value)
| OpCommitCheck.

Definition commit_op_call (E : Env) (op : commit_op) : rpc_call :=
  match op with
  | OpCommit kvargs =>
      Rpc "commit_configuration" (commit_rpc_varg kvargs) (commit_rpc_args E kvargs)
  | OpCommitCheck => Rpc "commit_configuration" [] {["check" := VBool true]}
  end.

Definition commit_op_run (E : Env) (op : commit_op) : M value :=
  match op with
  | OpCommit kvargs => commit E kvargs
  | OpCommitCheck => commit_check E
  end.

(** ** The calls the operations are expected to make *)

Definition diff_call (rb_id : Z) : rpc_call :=
  Rpc "get_configuration"
    [VDict (<["compare" := VStr "rollback"]>
           (<["rollback" := VStr (pretty rb_id)]>
           {["format" := VStr "text"]}))] ∅.

Definition rollback_call (rb_id : Z) : rpc_call :=
  Rpc "load_configuration"
    [VDict (<["compare" := VStr "rollback"]>
           {["rollback" := VStr (pretty rb_id)]})] ∅.

Definition rescue_get_call (format : value) : rpc_call :=
  Rpc "get_rescue_information" [] {["format" := format]}.

Definition rescue_reload_call : rpc_call :=
  Rpc "load_configuration" [VDict {["rescue" := VStr "rescue"]}] ∅.

(** The confirm arguments of a commit, in terms of the [confirm] option. *)
Definition confirm_timeout_of (E : Env) (confirm : value) : option value :=
  match confirm with
  | VBool _ => None
  | VInt n => Some (VStr (pretty n))
  | _ =>
      if String.eqb "True" (py_str (repr_obj E) confirm) then None
      else Some (VStr (py_str (repr_obj E) confirm))
  end.

Definition nl : string := String newline "".


(** Two [kvargs] that differ at most in [overwrite]. *)
Definition agree (kv1 kv2 : gmap string value) : Prop :=
  ∀ k, k ≠ "overwrite" → kv1 !! k = kv2 !! k.

Definition agree_result (r1 r2 : result load_state) : Prop :=
  match r1, r2 with
  | Ok (kv1, x1), Ok (kv2, x2) => agree kv1 kv2 ∧ x1 = x2
  | Raise e1, Raise e2 => e1 = e2
  | _, _ => False
  end.

(** ** Further notions for stating properties *)

(** The keyword arguments a commit request can carry. *)
Definition commit_request_keys : list string :=
  ["log"; "confirmed"; "confirm-timeout"; "dev_timeout";
   "synchronize"; "force-synchronize"; "full"].

(** The outcome of a load: a failure before anything was sent, or the
    outcome of one transmission whose attributes are the initial ones or
    those [_lset_format] made of them. *)
Definition sent_with (E : Env) (kvargs : gmap string value)
    (out : result value * list rpc_call) : Prop :=
  (∃ e, out = (Raise e, [])) ∨
  ∃ contents xattrs,
    out = run (try_load E contents xattrs) ∧
    (xattrs = load_xattrs_init kvargs ∨
     ∃ kv f kv', kv !! "format" = Some f ∧
       _lset_format (dict_get_default kvargs "overwrite" (VBool false)) kv
         (load_xattrs_init kvargs) = Ok (kv', xattrs)).

Definition unhandled_load_request : exn := Builtin "RuntimeError" "Unhandled load request".

(** What becomes of a text once the attributes are settled: parsed when the
    wire format is xml, then transmitted. *)
Definition send_text (E : Env) (text : string) (r : result load_state)
    : result value * list rpc_call :=
  match r with
  | Ok (_, x') =>
      (fmt <- lift (dict_item x' "format") ;;
       rpc_contents <- (if eq_str fmt "xml" then lift (parse_xml E text)
                        else ret (VStr text)) ;;
       try_load E rpc_contents x') []
  | Raise e => (Raise e, [])
  end.

(** ** A device for examples *)

Definition ok_reply : xml := Element "rpc-reply" None [Element "ok" None []].

(** An environment around a given device: files hold one set-style line,
    the parser wraps the text, templates render their source. *)
Definition env_of (device : rpc_call → result value) : Env :=
  {| rpc_exec := device;
     file_read := fun _ => Ok "set system host-name foo";
     etree_XML := fun s => Ok (Element "configuration" (Some s) []);
     dev_Template := fun p =>
       Ok (VTemplate (mkTemplate (match p with VStr s => Some s | _ => None end)
                                 "system { host-name foo; }"));
     template_render := fun t _ => Ok (source t);
     JXML_remove_namespaces := Ok;
     JXML_rpc_error := fun x => Ok (VDict {["message" := x]});
     repr_obj := fun _ => "<object>" |}.

Definition quiet_env : Env := env_of (fun _ => Ok (VElem ok_reply)).
Definition failing_env (e : exn) : Env := env_of (fun _ => Raise e).

(** * Properties *)

(** ** Decimal rendering *)

Lemma pretty_N_char_not_T (x : N) : pretty_N_char x ≠ "T"%char.
Proof. unfold pretty_N_char. by repeat case_match. Qed.

Lemma pretty_N_go_head (x : N) :
  ∀ s, (0 < x)%N → ∃ c s', pretty_N_go x s = String c s' ∧ c ≠ "T"%char.
Proof.
  induction (N.lt_wf_0 x) as [x _ IH]. intros s Hx.
  rewrite pretty_N_go_step by done.
  destruct (decide (x `div` 10 = 0)%N) as [Hz|Hz].
  - rewrite Hz, pretty_N_go_0. eexists _, _. split; [done|].
    apply pretty_N_char_not_T.
  - apply IH; [|by apply N.neq_0_lt_0]. apply N.div_lt; lia.
Qed.

Lemma pretty_N_not_True (x : N) : pretty x ≠ "True".
Proof.
  unfold pretty, pretty_N. case_decide as Hx; [done|].
  destruct (pretty_N_go_head x "") as (c & s' & -> & Hc); [lia|].
  intros [= ? _]. done.
Qed.

Lemma pretty_Z_not_True (n : Z) : pretty n ≠ "True".
Proof.
  destruct n as [|p|p]; unfold pretty, pretty_Z; simpl.
  - done.
  - apply pretty_N_not_True.
  - done.
Qed.

(** ** Running a computation *)

Lemma run_try_catch_call {B} (E : Env) (c : rpc_call) (h : exn → M B) (k : value → M B) :
  run (try_catch (call_rpc E c) h k) =
  match rpc_exec E c with
  | Ok v => k v [c]
  | Raise e => h e [c]
  end.
Proof. unfold run, try_catch, call_rpc. simpl. by destruct (rpc_exec E c). Qed.

Lemma run_bind_call {B} (E : Env) (c : rpc_call) (k : value → M B) :
  run (v <- call_rpc E c ;; k v) =
  match rpc_exec E c with
  | Ok v => k v [c]
  | Raise e => (Raise e, [c])
  end.
Proof. unfold run, bind, call_rpc. simpl. by destruct (rpc_exec E c). Qed.

(** ** Rollback ids *)

Lemma diff_trace (E : Env) (rb_id : Z) :
  0 ≤ rb_id ≤ 49 → snd (run (diff E rb_id)) = [diff_call rb_id].
Proof.
  intros Hb. unfold diff.
  replace ((rb_id <? 0) || (rb_id >? 49)) with false by lia.
  rewrite run_bind_call. simpl py_str. fold (diff_call rb_id).
  destruct (rpc_exec E (diff_call rb_id)) as [rsp|e]; [|done].
  unfold bind, lift, ret.
  destruct (py_find rsp "configuration-output") as [out|e]; [|done].
  by destruct (py_text out).
Qed.

Lemma rollback_run (E : Env) (rb_id : Z) :
  0 ≤ rb_id ≤ 49 →
  run (rollback E rb_id) =
  (match rpc_exec E (rollback_call rb_id) with
   | Ok _ => Ok (VBool true)
   | Raise e => Raise e
   end, [rollback_call rb_id]).
Proof.
  intros Hb. unfold rollback.
  replace ((rb_id <? 0) || (rb_id >? 49)) with false by lia.
  rewrite run_bind_call. simpl py_str. fold (rollback_call rb_id).
  by destruct (rpc_exec E (rollback_call rb_id)).
Qed.

(** C8.  An integer rollback id outside 0..49 makes both [diff] and
    [rollback] raise a ValueError that names the id, with no remote call
    made; an id within 0..49 (0 and 49 included) passes the check and the
    remote request for that id is issued. *)
Theorem rollback_id_checked (E : Env) (rb_id : Z) :
  if bool_decide (0 ≤ rb_id ≤ 49) then
    snd (run (diff E rb_id)) = [diff_call rb_id] ∧
    snd (run (rollback E rb_id)) = [rollback_call rb_id]
  else
    run (diff E rb_id) =
      (Raise (Builtin "ValueError" ("Invalid rollback #" +:+ pretty rb_id)), []) ∧
    run (rollback E rb_id) =
      (Raise (Builtin "ValueError" ("Invalid rollback #" +:+ pretty rb_id)), []).
Proof.
  case_bool_decide as Hb.
  - split; [by apply diff_trace|]. by rewrite rollback_run.
  - unfold diff, rollback.
    replace ((rb_id <? 0) || (rb_id >? 49)) with true by lia.
    done.
Qed.

Example rollback_id_edges :
  snd (run (diff quiet_env 0)) = [diff_call 0] ∧
  snd (run (rollback quiet_env 49)) = [rollback_call 49] ∧
  run (diff quiet_env (-1)) = (Raise (Builtin "ValueError" "Invalid rollback #-1"), []) ∧
  run (rollback quiet_env 50) = (Raise (Builtin "ValueError" "Invalid rollback #50"), []).
Proof. repeat split; vm_compute; reflexivity. Qed.

(** ** Rescue configuration *)

(** C9.  [rescue('get')] never raises: whatever the retrieval does, the
    result is a returned value, which is [None] when the call or the
    extraction of the text fails.  [rescue('reload')] returns [False] when
    the call fails and the raw response when it succeeds. *)
Theorem rescue_swallows_failures (E : Env) (format : value) :
  run (rescue E "get" format) =
    (Ok (match rpc_exec E (rescue_get_call format) with
         | Raise _ => VNone
         | Ok got =>
             if eq_str format "text" then
               match py_findtext2 got "configuration-information" "configuration-output" with
               | Ok text => text
               | Raise _ => VNone
               end
             else got
         end), [rescue_get_call format]) ∧
  run (rescue E "reload" format) =
    (Ok (match rpc_exec E rescue_reload_call with
         | Raise _ => VBool false
         | Ok rsp => rsp
         end), [rescue_reload_call]).
Proof.
  split.
  - change (rescue E "get" format) with (_rescue_get E format).
    unfold _rescue_get, run, try_catch, bind, call_rpc, lift, ret. simpl.
    fold (rescue_get_call format).
    destruct (rpc_exec E (rescue_get_call format)) as [got|e]; [|done].
    destruct (eq_str format "text"); [|done].
    by destruct (py_findtext2 got _ _).
  - change (rescue E "reload" format) with (_rescue_reload E).
    unfold _rescue_reload. rewrite run_try_catch_call.
    fold rescue_reload_call.
    by destruct (rpc_exec E rescue_reload_call).
Qed.

Example rescue_get_on_failure (e : exn) :
  run (rescue (failing_env e) "get" (VStr "text")) = (Ok VNone, [rescue_get_call (VStr "text")]) ∧
  run (rescue (failing_env e) "reload" (VStr "text")) = (Ok (VBool false), [rescue_reload_call]).
Proof. split; reflexivity. Qed.

(** ** Commit and commit check *)

(** C4.  When the commit call, or the commit-check call, raises a
    structured protocol error carrying a response document, the operation
    returns [True] if the response has an [ok] child (warnings only), and
    otherwise raises CommitError with the command and the response of the
    error.  The timeout error is the one subclass [commit] re-raises as it is. *)
Theorem commit_protocol_error (E : Env) (op : commit_op) (c : junos_class)
    (cmd errs : value) (rsp : xml) :
  rpc_exec E (commit_op_call E op) = Raise (JunosExc c cmd (VElem rsp) errs) →
  c ≠ RpcTimeoutError →
  run (commit_op_run E op) =
    (match xml_find "ok" rsp with
     | Some _ => Ok (VBool true)
     | None => Raise (JunosExc CommitError cmd (VElem rsp) VNone)
     end, [commit_op_call E op]).
Proof.
  intros Hexec Hc. destruct op as [kvargs|]; simpl in *.
  - unfold commit. rewrite run_try_catch_call, Hexec.
    destruct c; try done;
      unfold on_rpc_error, bind, lift; simpl; by destruct (xml_find "ok" rsp).
  - unfold commit_check. rewrite run_try_catch_call, Hexec.
    unfold on_rpc_error, bind, lift; simpl. by destruct (xml_find "ok" rsp).
Qed.

Lemma commit_protocol_error_witness :
  let E := failing_env (JunosExc RpcError (VStr "commit") (VElem ok_reply) VNone) in
  RpcError ≠ RpcTimeoutError ∧
  run (commit_op_run E (OpCommit ∅)) =
    (match xml_find "ok" ok_reply with
     | Some _ => Ok (VBool true)
     | None => Raise (JunosExc CommitError (VStr "commit") (VElem ok_reply) VNone)
     end, [commit_op_call E (OpCommit ∅)]).
Proof.
  split; [discriminate|].
  apply (commit_protocol_error
           (failing_env (JunosExc RpcError (VStr "commit") (VElem ok_reply) VNone))
           (OpCommit ∅) RpcError (VStr "commit") VNone ok_reply).
  - reflexivity.
  - discriminate.
Defined.

Example commit_warnings_only :
  run (commit (failing_env (JunosExc RpcError (VStr "commit") (VElem ok_reply) VNone)) ∅) =
    (Ok (VBool true), [Rpc "commit_configuration" [] ∅]).
Proof. vm_compute. reflexivity. Qed.

Example commit_check_error_without_ok :
  let rsp := Element "rpc-reply" None [Element "rpc-error" None []] in
  run (commit_check (failing_env (JunosExc RpcError (VStr "check") (VElem rsp) VNone))) =
    (Raise (JunosExc CommitError (VStr "check") (VElem rsp) VNone),
     [Rpc "commit_configuration" [] {["check" := VBool true]}]).
Proof. vm_compute. reflexivity. Qed.

(** The timeout error passes through [commit] untouched. *)
Lemma commit_timeout_propagates (E : Env) (kvargs : gmap string value) (cmd rsp errs : value) :
  rpc_exec E (commit_op_call E (OpCommit kvargs)) = Raise (JunosExc RpcTimeoutError cmd rsp errs) →
  fst (run (commit E kvargs)) = Raise (JunosExc RpcTimeoutError cmd rsp errs).
Proof.
  intros Hexec. simpl in Hexec. unfold commit. by rewrite run_try_catch_call, Hexec.
Qed.

(** C6.  When the underlying call fails with a generic exception that
    carries an XML diagnostic document, [commit_check] returns the mapping
    that [JXML.rpc_error] makes of the document, where [commit] raises
    CommitError with the document as its response. *)
Theorem commit_check_returns_mapping (E : Env) (kvargs : gmap string value)
    (name : string) (doc : xml) (mapping : gmap string value) :
  rpc_exec E (commit_op_call E OpCommitCheck) = Raise (Foreign name (Some (VElem doc))) →
  rpc_exec E (commit_op_call E (OpCommit kvargs)) = Raise (Foreign name (Some (VElem doc))) →
  JXML_rpc_error E (VElem doc) = Ok (VDict mapping) →
  run (commit_check E) = (Ok (VDict mapping), [commit_op_call E OpCommitCheck]) ∧
  run (commit E kvargs) =
    (Raise (JunosExc CommitError VNone (VElem doc) VNone), [commit_op_call E (OpCommit kvargs)]).
Proof.
  simpl. intros Hcheck Hcommit Hmap. split.
  - unfold commit_check. rewrite run_try_catch_call, Hcheck.
    unfold bind, lift. simpl. by rewrite Hmap.
  - unfold commit. by rewrite run_try_catch_call, Hcommit.
Qed.

Lemma commit_check_returns_mapping_witness :
  let E := failing_env (Foreign "RPCError" (Some (VElem ok_reply))) in
  run (commit_check E) =
    (Ok (VDict {["message" := VElem ok_reply]}), [commit_op_call E OpCommitCheck]) ∧
  run (commit E ∅) =
    (Raise (JunosExc CommitError VNone (VElem ok_reply) VNone), [commit_op_call E (OpCommit ∅)]).
Proof.
  apply (commit_check_returns_mapping
           (failing_env (Foreign "RPCError" (Some (VElem ok_reply)))) ∅ "RPCError" ok_reply
           {["message" := VElem ok_reply]}); reflexivity.
Defined.

(** Without a document to convert, [commit_check] has nothing to return:
    reading [err.xml] raises AttributeError, where [commit] re-raises the
    exception it was given. *)
Lemma commit_check_without_document (E : Env) (name : string) :
  rpc_exec E (commit_op_call E OpCommitCheck) = Raise (Foreign name None) →
  run (commit_check E) =
    (Raise (no_attribute name "xml"), [commit_op_call E OpCommitCheck]).
Proof.
  simpl. intros Hcheck. unfold commit_check. by rewrite run_try_catch_call, Hcheck.
Qed.

(** [commit] makes exactly one call, with the arguments built from [kvargs]. *)
Lemma commit_trace (E : Env) (kvargs : gmap string value) :
  snd (run (commit E kvargs)) = [commit_op_call E (OpCommit kvargs)].
Proof.
  unfold commit. rewrite run_try_catch_call. simpl.
  destruct (rpc_exec E _) as [rsp|e].
  - by destruct (truthy (dict_get kvargs "detail")).
  - destruct e as [c cmd rsp errs|name msg|name [x|]|name]; try done.
    + destruct c; try done;
        unfold on_rpc_error, bind, lift; destruct (py_find rsp "ok") as [f|]; try done;
        by destruct (negb (is_None f)).
    + by destruct x.
Qed.

(** What follows the confirm step only adds other keys. *)
Lemma commit_rpc_args_tail (E : Env) (kvargs : gmap string value) (k : string) :
  k ∈ ["confirmed"; "confirm-timeout"] →
  commit_rpc_args E kvargs !! k =
  (let confirm := dict_get kvargs "confirm" in
   if truthy confirm then
     let rpc_args : gmap string value := {["confirmed" := VBool true]} in
     let confirm_val := py_str (repr_obj E) confirm in
     if negb (String.eqb "True" confirm_val)
     then <["confirm-timeout" := VStr confirm_val]> rpc_args
     else rpc_args
   else ∅) !! k.
Proof.
  intros Hk. unfold commit_rpc_args. cbv zeta.
  assert (k ≠ "log" ∧ k ≠ "dev_timeout" ∧ k ≠ "synchronize" ∧
          k ≠ "force-synchronize" ∧ k ≠ "full") as (? & ? & ? & ? & ?).
  { set_unfold in Hk. destruct Hk as [->|[->|[]]]; by repeat split. }
  destruct (truthy (dict_get kvargs "full")),
           (truthy (dict_get kvargs "force_sync")),
           (truthy (dict_get kvargs "sync")),
           (truthy (dict_get kvargs "timeout"));
    rewrite ?lookup_insert_ne by done;
    destruct (truthy (dict_get kvargs "confirm"));
    destruct (truthy (dict_get kvargs "comment"));
    try destruct (negb _);
    set_unfold in Hk; destruct Hk as [->|[->|[]]]; by simplify_map_eq.
Qed.

Lemma commit_rpc_args_confirmed (E : Env) (kvargs : gmap string value) :
  commit_rpc_args E kvargs !! "confirmed" =
  if truthy (dict_get kvargs "confirm") then Some (VBool true) else None.
Proof.
  rewrite commit_rpc_args_tail by set_solver. cbv zeta.
  destruct (truthy _); [|done]. destruct (negb _); by simplify_map_eq.
Qed.

Lemma commit_rpc_args_timeout (E : Env) (kvargs : gmap string value) :
  commit_rpc_args E kvargs !! "confirm-timeout" =
  if truthy (dict_get kvargs "confirm")
  then confirm_timeout_of E (dict_get kvargs "confirm")
  else None.
Proof.
  rewrite commit_rpc_args_tail by set_solver. cbv zeta.
  destruct (truthy (dict_get kvargs "confirm")) eqn:Htruthy; [|done].
  destruct (dict_get kvargs "confirm") as [|[]|n|s|x|d|t];
    unfold confirm_timeout_of, py_str; try discriminate Htruthy.
  - by rewrite String.eqb_refl.
  - destruct (String.eqb_spec "True" (pretty n)) as [Heq|Hne].
    + symmetry in Heq. by apply pretty_Z_not_True in Heq.
    + apply lookup_insert_eq.
  - destruct (String.eqb "True" s); [done|apply lookup_insert_eq].
  - destruct (String.eqb "True" _); [done|apply lookup_insert_eq].
  - destruct (String.eqb "True" _); [done|apply lookup_insert_eq].
  - destruct (String.eqb "True" _); [done|apply lookup_insert_eq].
Qed.

(** C7, as amended.  The request of a commit carries the [confirmed] flag
    exactly when the [confirm] option is truthy ([True] or a minute count
    other than 0).  It then carries a [confirm-timeout] equal to the
    decimal minute count when [confirm] is an integer, and no
    [confirm-timeout] when [confirm] is the boolean [True]. *)
Theorem commit_confirm_args (E : Env) (kvargs : gmap string value) :
  let confirm := dict_get kvargs "confirm" in
  let request := commit_op_call E (OpCommit kvargs) in
  snd (run (commit E kvargs)) = [request] ∧
  rpc_kwargs request !! "confirmed" =
    (if truthy confirm then Some (VBool true) else None) ∧
  rpc_kwargs request !! "confirm-timeout" =
    (if truthy confirm then confirm_timeout_of E confirm else None).
Proof.
  split; [apply commit_trace|]. split.
  - apply commit_rpc_args_confirmed.
  - apply commit_rpc_args_timeout.
Qed.

Example commit_confirm_default_and_five :
  let default := commit_op_call quiet_env (OpCommit {["confirm" := VBool true]}) in
  let five := commit_op_call quiet_env (OpCommit {["confirm" := VInt 5]}) in
  rpc_kwargs default = {["confirmed" := VBool true]} ∧
  rpc_kwargs five = {["confirmed" := VBool true; "confirm-timeout" := VStr "5"]}.
Proof. split; vm_compute; reflexivity. Qed.

(** C7 as stated fails: a commit whose [confirm] option is present with the
    minute count 0 carries no [confirmed] flag. *)
Lemma confirm_present_not_confirmed :
  ¬ (∀ (E : Env) (kvargs : gmap string value),
       is_Some (kvargs !! "confirm") →
       rpc_kwargs (commit_op_call E (OpCommit kvargs)) !! "confirmed" = Some (VBool true)).
Proof.
  intros H.
  specialize (H quiet_env {["confirm" := VInt 0]}).
  assert (is_Some (({["confirm" := VInt 0]} : gmap string value) !! "confirm")) as Hp
    by (eexists; reflexivity).
  apply H in Hp. vm_compute in Hp. discriminate Hp.
Qed.

(** ** Lock and unlock *)

Lemma lock_like_protocol_error (E : Env) (name : string) (cls c : junos_class)
    (cmd rsp errs : value) :
  rpc_exec E (Rpc name [] ∅) = Raise (JunosExc c cmd rsp errs) →
  run (lock_like E name cls) = (Raise (JunosExc cls VNone rsp VNone), [Rpc name [] ∅]).
Proof. intros H. unfold lock_like. by rewrite run_try_catch_call, H. Qed.

Lemma lock_like_transport_error (E : Env) (name ename : string) (cls : junos_class)
    (doc clean : value) :
  rpc_exec E (Rpc name [] ∅) = Raise (Foreign ename (Some doc)) →
  JXML_remove_namespaces E doc = Ok clean →
  run (lock_like E name cls) = (Raise (JunosExc cls VNone clean VNone), [Rpc name [] ∅]).
Proof.
  intros H Hclean. unfold lock_like. rewrite run_try_catch_call, H.
  unfold bind, lift. simpl. by rewrite Hclean.
Qed.

(** An exception without an [xml] attribute is not re-raised by [lock] and
    [unlock]: reading [err.xml] in the handler raises AttributeError. *)
Lemma lock_like_unrecognized (E : Env) (name : string) (cls : junos_class) (e : exn) :
  rpc_exec E (Rpc name [] ∅) = Raise e →
  is_Exception e = true → is_RpcError e = false → exn_xml e = Raise (no_attribute (class_name e) "xml") →
  run (lock_like E name cls) = (Raise (no_attribute (class_name e) "xml"), [Rpc name [] ∅]).
Proof.
  intros H Hexc Hrpc Hxml. unfold lock_like. rewrite run_try_catch_call, H.
  destruct e as [| | |]; try done; unfold bind, lift; by rewrite Hxml.
Qed.

(** For the same exception [commit] and [load] re-raise it unmodified. *)
Lemma commit_unrecognized_propagates (E : Env) (kvargs : gmap string value) (e : exn) :
  rpc_exec E (commit_op_call E (OpCommit kvargs)) = Raise e →
  is_RpcError e = false → has_xml_element e = false →
  run (commit E kvargs) = (Raise e, [commit_op_call E (OpCommit kvargs)]).
Proof.
  simpl. intros H Hrpc Hxml. unfold commit. rewrite run_try_catch_call, H.
  destruct e; try done; by rewrite Hxml.
Qed.

Lemma try_load_unrecognized_propagates (E : Env) (contents : value)
    (xattrs : gmap string value) (e : exn) :
  rpc_exec E (Rpc "load_config" [contents] xattrs) = Raise e →
  is_RpcError e = false →
  run (try_load E contents xattrs) = (Raise e, [Rpc "load_config" [contents] xattrs]).
Proof.
  intros H Hrpc. unfold try_load. rewrite run_try_catch_call, H. by destruct e.
Qed.

(** C5, where the code departs from it.  The device closes the session:
    the call raises an exception that is neither a structured protocol
    error nor carries an XML document.  [commit] and [load] let it through
    unmodified, but [lock] and [unlock] raise an AttributeError in its place. *)
Theorem lock_masks_unrecognized_failure :
  let e := Foreign "SessionCloseError" None in
  let masked :=
    Builtin "AttributeError" "'SessionCloseError' object has no attribute 'xml'" in
  run (lock (failing_env e)) = (Raise masked, [Rpc "lock_configuration" [] ∅]) ∧
  run (unlock (failing_env e)) = (Raise masked, [Rpc "unlock_configuration" [] ∅]) ∧
  fst (run (commit (failing_env e) ∅)) = Raise e ∧
  fst (run (load (failing_env e) [VStr "set system host-name foo"] ∅)) = Raise e.
Proof. repeat split; vm_compute; reflexivity. Qed.

(** ** The matcher against the meaning of patterns *)

Local Open Scope list_scope.

Lemma last_of_nil p : last_of p [] = p.
Proof. done. Qed.

Lemma last_of_app p (w1 w2 : list ascii) : last_of (last_of p w1) w2 = last_of p (w1 ++ w2).
Proof. unfold last_of. rewrite last_app. by destruct (last w2). Qed.

Lemma last_of_cons p c (w : list ascii) : last_of p (c :: w) = last_of (Some c) w.
Proof. unfold last_of. rewrite last_cons. by destruct (last w). Qed.

Lemma last_of_None (w : list ascii) : last_of None w = last w.
Proof. unfold last_of. by destruct (last w). Qed.

Section engine.
Context (fl : flags).
Implicit Types (k : option ascii → list ascii → bool).

Lemma star_loop_mono step : monotone step →
  ∀ fuel, monotone (fun p s k => star_loop step k fuel p s).
Proof.
  intros Hstep fuel. induction fuel as [|fuel IH]; intros p s k k' Hk; simpl.
  - rewrite !orb_false_r. apply Hk.
  - intros [H|H]%orb_true_iff; apply orb_true_iff; [left; by apply Hk|right].
    revert H. apply Hstep. intros p' s' [Hlt H]%andb_true_iff.
    apply andb_true_iff. split; [done|]. revert H. by apply IH.
Qed.

Lemma rmatch_mono r : monotone (rmatch fl r).
Proof.
  induction r as [| | |cs|a IHa b IHb|a IHa b IHb|a IHa]; intros p s k k' Hk; simpl.
  - apply Hk.
  - intros [? ?]%andb_true_iff. apply andb_true_iff. auto.
  - intros [? ?]%andb_true_iff. apply andb_true_iff. auto.
  - destruct s as [|c s']; [done|].
    intros [? ?]%andb_true_iff. apply andb_true_iff. auto.
  - apply IHa. intros p' s'. by apply IHb.
  - intros [H|H]%orb_true_iff; apply orb_true_iff; [left|right].
    + revert H. by apply IHa.
    + revert H. by apply IHb.
  - by apply (star_loop_mono _ IHa).
Qed.

Lemma star_loop_fuel step k : monotone step →
  ∀ fuel fuel' p s, (fuel ≤ fuel')%nat →
    star_loop step k fuel p s = true → star_loop step k fuel' p s = true.
Proof.
  intros Hstep fuel. induction fuel as [|fuel IH]; intros fuel' p s Hle; simpl.
  - rewrite orb_false_r. intros H. destruct fuel'; simpl; by rewrite H.
  - destruct fuel' as [|fuel']; [lia|]. simpl.
    intros [H|H]%orb_true_iff; apply orb_true_iff; [by left|right].
    revert H. apply Hstep. intros p' s' [Hlt H]%andb_true_iff.
    apply andb_true_iff. split; [done|]. revert H. apply IH. lia.
Qed.

(** Soundness *)
Lemma star_loop_sound a k :
  (∀ p s k, rmatch fl a p s k = true →
     ∃ w rest, s = w ++ rest ∧ matches fl a p w rest ∧ k (last_of p w) rest = true) →
  ∀ fuel p s, star_loop (rmatch fl a) k fuel p s = true →
    ∃ w rest, s = w ++ rest ∧ matches fl (Star a) p w rest ∧ k (last_of p w) rest = true.
Proof.
  intros IHa fuel. induction fuel as [|fuel IH]; intros p s; simpl.
  - rewrite orb_false_r. intros H. exists [], s. repeat split; [constructor|done].
  - intros [H|H]%orb_true_iff.
    + exists [], s. repeat split; [constructor|done].
    + apply IHa in H as (w1 & rest1 & -> & Hm1 & [_ H]%andb_true_iff).
      apply IH in H as (w2 & rest & -> & Hm2 & Hk).
      exists (w1 ++ w2), rest. rewrite <- last_of_app, app_assoc.
      repeat split; [|done]. by constructor.
Qed.

Lemma rmatch_sound r : ∀ p s k, rmatch fl r p s k = true →
  ∃ w rest, s = w ++ rest ∧ matches fl r p w rest ∧ k (last_of p w) rest = true.
Proof.
  induction r as [| | |cs|a IHa b IHb|a IHa b IHb|a IHa]; intros p s k; simpl.
  - intros H. exists [], s. repeat split; [constructor|done].
  - intros [? ?]%andb_true_iff. exists [], s. repeat split; [by constructor|done].
  - intros [? ?]%andb_true_iff. exists [], s. repeat split; [by constructor|done].
  - destruct s as [|c s']; [done|]. intros [? ?]%andb_true_iff.
    exists [c], s'. repeat split; [by constructor|done].
  - intros H. apply IHa in H as (w1 & rest1 & -> & Hm1 & H).
    apply IHb in H as (w2 & rest & -> & Hm2 & Hk).
    exists (w1 ++ w2), rest. rewrite <- last_of_app, app_assoc.
    repeat split; [|done]. by constructor.
  - intros [H|H]%orb_true_iff.
    + apply IHa in H as (w & rest & -> & Hm & Hk). exists w, rest.
      repeat split; [|done]. by apply M_AltL.
    + apply IHb in H as (w & rest & -> & Hm & Hk). exists w, rest.
      repeat split; [|done]. by apply M_AltR.
  - by apply star_loop_sound.
Qed.

(** Completeness *)
Lemma rmatch_complete r p w rest : matches fl r p w rest →
  ∀ k, k (last_of p w) rest = true → rmatch fl r p (w ++ rest) k = true.
Proof.
  induction 1 as [p rest|p rest Hb|p rest He|cs c p rest Hc
                 |a b p w1 w2 rest _ IH1 _ IH2|a b p w rest _ IH|a b p w rest _ IH
                 |a p rest|a p w1 w2 rest _ IH1 _ IH2]; intros k Hk; simpl.
  - done.
  - by rewrite Hb.
  - by rewrite He.
  - by rewrite Hc.
  - rewrite <- app_assoc. apply IH1. apply IH2. by rewrite last_of_app.
  - by rewrite IH.
  - rewrite IH by done. apply orb_true_r.
  - rewrite last_of_nil in Hk. destruct (length rest); simpl; by rewrite Hk.
  - destruct w1 as [|c w1].
    { simpl. by apply IH2. }
    rewrite <- app_assoc. simpl. apply orb_true_iff. right.
    apply (IH1 (fun p' s' => (length s' <? S (length (w1 ++ w2 ++ rest)))%nat &&
                 star_loop (rmatch fl a) k (length (w1 ++ w2 ++ rest)) p' s')).
    apply andb_true_iff. split.
    + apply Nat.ltb_lt. rewrite !length_app. lia.
    + apply star_loop_fuel with (length (w2 ++ rest)).
      * apply rmatch_mono.
      * rewrite !length_app. lia.
      * apply IH2. by rewrite last_of_app.
Qed.

Theorem rmatch_correct r p s k :
  rmatch fl r p s k = true ↔
  ∃ w rest, s = w ++ rest ∧ matches fl r p w rest ∧ k (last_of p w) rest = true.
Proof.
  split; [apply rmatch_sound|].
  intros (w & rest & -> & Hm & Hk). by apply rmatch_complete.
Qed.

Lemma search_from_correct r : ∀ s p,
  search_from fl r p s = true ↔
  ∃ pre w post, s = pre ++ w ++ post ∧ matches fl r (last_of p pre) w post.
Proof.
  induction s as [|c s IH]; intros p; simpl.
  - rewrite orb_false_r, rmatch_correct. split.
    + intros (w & rest & Hs & Hm & _). exists [], w, rest. by split.
    + intros (pre & w & post & Hs & Hm).
      destruct pre; [|done]. destruct w; [|done]. destruct post; [|done].
      exists [], []. by repeat split.
  - rewrite orb_true_iff, rmatch_correct, IH. split.
    + intros [(w & rest & Hs & Hm & _)|(pre & w & post & -> & Hm)].
      * exists [], w, rest. by split.
      * exists (c :: pre), w, post. split; [done|]. by rewrite last_of_cons.
    + intros (pre & w & post & Hs & Hm). destruct pre as [|c' pre].
      * left. exists w, post. by repeat split.
      * right. injection Hs as <- ->. exists pre, w, post. split; [done|].
        by rewrite <- last_of_cons with (p := p).
Qed.
End engine.

Theorem re_search_correct fl r text :
  re_search fl r text = true ↔ found_in fl r (list_ascii_of_string text).
Proof.
  unfold re_search, found_in. rewrite search_from_correct.
  by setoid_rewrite last_of_None.
Qed.

(** ** Inverting matches *)

Lemma matches_eps_inv fl p w rest : matches fl Eps p w rest → w = [].
Proof. by inversion 1. Qed.

Lemma matches_bol_inv fl p w rest : matches fl Bol p w rest → w = [] ∧ at_bol fl p = true.
Proof. by inversion 1. Qed.

Lemma matches_eol_inv fl p w rest : matches fl Eol p w rest → w = [] ∧ at_eol fl rest = true.
Proof. by inversion 1. Qed.

Lemma matches_chr_inv fl cs p w rest :
  matches fl (Chr cs) p w rest → ∃ c, w = [c] ∧ cmatch fl cs c = true.
Proof. inversion 1; subst. by eexists. Qed.

Lemma matches_seq_inv fl a b p w rest :
  matches fl (Seq a b) p w rest →
  ∃ w1 w2, w = w1 ++ w2 ∧ matches fl a p w1 (w2 ++ rest) ∧ matches fl b (last_of p w1) w2 rest.
Proof. inversion 1; subst. by eexists _, _. Qed.

Lemma matches_alt_inv fl a b p w rest :
  matches fl (Alt a b) p w rest → matches fl a p w rest ∨ matches fl b p w rest.
Proof. inversion 1; subst; auto. Qed.

Lemma matches_star_chr fl cs p w rest :
  matches fl (Star (Chr cs)) p w rest ↔ Forall (λ c, cmatch fl cs c = true) w.
Proof.
  split.
  - intros H. remember (Star (Chr cs)) as r eqn:Hr.
    induction H as [| | | | | | | |a p w1 w2 rest H1 _ _ IH2]; try discriminate.
    + constructor.
    + injection Hr as ->. apply matches_chr_inv in H1 as (c & -> & Hc).
      constructor; [done|]. by apply IH2.
  - intros H. revert p. induction H as [|c w Hc _ IH]; intros p.
    + constructor.
    + apply (M_StarS fl (Chr cs) p [c] w rest); [by constructor|apply IH].
Qed.

Lemma matches_plus_chr fl cs p w rest :
  matches fl (Plus (Chr cs)) p w rest ↔ w ≠ [] ∧ Forall (λ c, cmatch fl cs c = true) w.
Proof.
  unfold Plus. split.
  - intros (w1 & w2 & -> & (c & -> & Hc)%matches_chr_inv & H2%matches_star_chr)%matches_seq_inv.
    split; [done|]. by constructor.
  - intros [Hne H]. destruct H as [|c w Hc H]; [done|].
    apply (M_Seq fl _ _ p [c] w rest); [by constructor|by apply matches_star_chr].
Qed.

Lemma matches_lit fl s p w rest :
  ignorecase fl = false →
  matches fl (Lit s) p w rest ↔ w = list_ascii_of_string s.
Proof.
  intros Hfl. unfold Lit, Cat. revert p w.
  induction s as [|c s IH]; intros p w; simpl.
  - split; [apply matches_eps_inv|intros ->; constructor].
  - split.
    + intros (w1 & w2 & -> & (c' & -> & Hc)%matches_chr_inv & H2%IH)%matches_seq_inv.
      subst. simpl in Hc. rewrite Hfl in Hc. by apply Ascii.eqb_eq in Hc as ->.
    + intros ->. apply (M_Seq fl _ _ p [c] (list_ascii_of_string s) rest).
      * constructor. simpl. rewrite Hfl. apply Ascii.eqb_refl.
      * by apply IH.
Qed.

Lemma last_None_nil {A} (l : list A) : last l = None → l = [].
Proof.
  induction l as [|x l IH]; [done|]. rewrite last_cons.
  by destruct (last l).
Qed.

Lemma at_bol_plain p : at_bol no_flags p = true ↔ p = None.
Proof. destruct p; simpl; split; done. Qed.

(** The set test *)
Theorem looks_like_set_spec (text : string) :
  looks_like_set text = true ↔ starts_with_set_keyword (list_ascii_of_string text).
Proof.
  unfold looks_like_set. rewrite re_search_correct.
  unfold found_in, starts_with_set_keyword, re_set, Cat, AnyOf. simpl. split.
  - intros (pre & w & post & -> & H).
    apply matches_seq_inv in H as (w0 & w' & -> & [-> Hb]%matches_bol_inv & H).
    apply at_bol_plain, last_None_nil in Hb as ->.
    apply matches_seq_inv in H as (ws & w'' & -> & Hws%matches_star_chr & H).
    apply matches_seq_inv in H as (kw & w3 & -> & Hkw & H).
    apply matches_seq_inv in H as (w4 & w5 & -> & (c & -> & Hc)%matches_chr_inv & ->%matches_eps_inv).
    assert (∃ k : string, kw = list_ascii_of_string k ∧
              k ∈ ["set"; "delete"; "replace"; "rename"]%string) as (k & -> & Hk).
    { apply matches_alt_inv in Hkw as [Hkw|Hkw];
        [apply matches_alt_inv in Hkw as [Hkw|Hkw];
          [apply matches_alt_inv in Hkw as [Hkw|Hkw]|]|];
        apply matches_lit in Hkw; try done; eexists; (split; [exact Hkw|set_solver]). }
    exists ws, k, c, post. simpl. rewrite <- !app_assoc. simpl. by repeat split.
  - intros (ws & kw & c & rest & -> & Hws & Hkw & Hc).
    exists [], (ws ++ list_ascii_of_string kw ++ [c]), rest. split.
    { simpl. by rewrite <- !app_assoc. }
    apply (M_Seq _ _ _ _ [] _ rest); [by constructor|].
    apply (M_Seq _ _ _ _ ws _ rest); [by apply matches_star_chr|].
    apply (M_Seq _ _ _ _ (list_ascii_of_string kw) [c] rest).
    + set_unfold in Hkw.
      destruct Hkw as [->|[->|[->|[->|[]]]]].
      * apply M_AltL, M_AltL, M_AltL. by apply matches_lit.
      * apply M_AltL, M_AltL, M_AltR. by apply matches_lit.
      * apply M_AltL, M_AltR. by apply matches_lit.
      * apply M_AltR. by apply matches_lit.
    + apply (M_Seq _ _ _ _ [c] [] rest); [by constructor|constructor].
Qed.

Lemma at_bol_multiline (pre : list ascii) :
  at_bol MULTILINE (last pre) = true ↔ pre = [] ∨ last pre = Some newline.
Proof.
  destruct (last pre) as [c|] eqn:Hl; simpl.
  - rewrite Ascii.eqb_eq. split.
    + intros ->. by right.
    + intros [->|[= ->]]; [done|done].
  - split; [|done]. intros _. left. by apply last_None_nil.
Qed.

Lemma at_eol_multiline (post : list ascii) :
  at_eol MULTILINE post = true ↔ post = [] ∨ head post = Some newline.
Proof.
  destruct post as [|c post]; simpl.
  - split; auto.
  - rewrite andb_true_r, Ascii.eqb_eq. split.
    + intros ->. by right.
    + by intros [?|[= ->]].
Qed.

Lemma at_eol_plain (post : list ascii) :
  at_eol no_flags post = true ↔ post = [] ∨ post = [newline].
Proof.
  destruct post as [|c [|c' post]]; simpl.
  - split; auto.
  - rewrite andb_true_r, Ascii.eqb_eq. split.
    + intros ->. by right.
    + by intros [?|[= ->]].
  - rewrite andb_false_r. split; [done|]. by intros [?|?].
Qed.

Lemma cmatch_dot fl c : cmatch fl CDot c = true ↔ c ≠ newline.
Proof.
  simpl. rewrite negb_true_iff. split.
  - intros H ->. by rewrite Ascii.eqb_refl in H.
  - intros H. by apply Ascii.eqb_neq.
Qed.

Lemma Forall_dot fl (w : list ascii) :
  Forall (λ c, cmatch fl CDot c = true) w ↔ Forall (λ c, c ≠ newline) w.
Proof. apply Forall_proper; [|done]. intros c. apply cmatch_dot. Qed.

(** The tag test *)
Theorem looks_like_xml_spec (text : string) :
  looks_like_xml text = true ↔ has_tag_line (list_ascii_of_string text).
Proof.
  unfold looks_like_xml. rewrite re_search_correct.
  unfold found_in, has_tag_line, re_xml, Cat. simpl. split.
  - intros (pre & w & post & -> & H).
    apply matches_seq_inv in H as (w0 & w' & -> & [-> Hb]%matches_bol_inv & H).
    apply at_bol_multiline in Hb.
    apply matches_seq_inv in H as (ws & w1 & -> & Hws%matches_star_chr & H).
    apply matches_seq_inv in H as (lt & w2 & -> & Hlt%matches_lit & H); [|done].
    apply matches_seq_inv in H as (body & w3 & -> & Hbody%matches_star_chr%Forall_dot & H).
    apply matches_seq_inv in H as (gt & w4 & -> & Hgt%matches_lit & H); [|done].
    apply matches_seq_inv in H as (w5 & w6 & -> & [-> He]%matches_eol_inv & ->%matches_eps_inv).
    apply at_eol_multiline in He. subst lt gt.
    exists pre, ws, body, post. simpl in *. rewrite <- !app_assoc. simpl.
    rewrite <- !app_assoc. by repeat split.
  - intros (pre & ws & body & post & -> & Hb & Hws & Hbody & He).
    exists pre, (ws ++ "<"%char :: body ++ [">"%char]), post. split.
    { rewrite <- !app_assoc. simpl. by rewrite <- !app_assoc. }
    apply (M_Seq _ _ _ _ [] _ post); [constructor; by apply at_bol_multiline|].
    apply (M_Seq _ _ _ _ ws _ post); [by apply matches_star_chr|].
    apply (M_Seq _ _ _ _ ["<"%char] (body ++ [">"%char]) post);
      [by apply (matches_lit _ "<")|].
    apply (M_Seq _ _ _ _ body [">"%char] post);
      [by apply matches_star_chr, Forall_dot|].
    apply (M_Seq _ _ _ _ [">"%char] [] post); [by apply (matches_lit _ ">")|].
    apply (M_Seq _ _ _ _ [] [] post); [|constructor].
    constructor. by apply at_eol_multiline.
Qed.

Lemma cmatch_brace_ignorecase c :
  cmatch IGNORECASE (CLit "{") c = true ↔ c = "{"%char.
Proof.
  split; [|intros ->; reflexivity].
  destruct c as [[] [] [] [] [] [] [] []]; vm_compute; intros H; done.
Qed.

Lemma at_bol_ignorecase p : at_bol IGNORECASE p = true ↔ p = None.
Proof. destruct p; simpl; split; done. Qed.

Lemma all_space_newline : all_space [newline].
Proof. by repeat constructor. Qed.

Lemma curly_open_spec (text : string) :
  re_search IGNORECASE re_curly_open text = true ↔
  ∃ prefix ws1 word ws2 rest : list ascii,
    list_ascii_of_string text = prefix ++ ws1 ++ word ++ ws2 ++ "{"%char :: rest ∧
    Forall (λ c, cmatch IGNORECASE (CRanges [("a", "z"); (":", ":")]%char) c = true) prefix ∧
    all_space ws1 ∧
    word ≠ [] ∧ Forall (λ c, is_word c = true) word ∧
    ws2 ≠ [] ∧ all_space ws2.
Proof.
  rewrite re_search_correct. unfold found_in, re_curly_open, Cat. simpl. split.
  - intros (pre & w & post & -> & H).
    apply matches_seq_inv in H as (w0 & w' & -> & [-> Hb]%matches_bol_inv & H).
    apply at_bol_ignorecase, last_None_nil in Hb as ->.
    apply matches_seq_inv in H as (prefix & w1 & -> & Hprefix%matches_star_chr & H).
    apply matches_seq_inv in H as (ws1 & w2 & -> & Hws1%matches_star_chr & H).
    apply matches_seq_inv in H as (word & w3 & -> & [Hne Hword]%matches_plus_chr & H).
    apply matches_seq_inv in H as (ws2 & w4 & -> & [Hne2 Hws2]%matches_plus_chr & H).
    apply matches_seq_inv in H as (br & w5 & -> & Hbr & ->%matches_eps_inv).
    apply matches_seq_inv in Hbr as
      (br1 & br2 & -> & (c & -> & ->%cmatch_brace_ignorecase)%matches_chr_inv
       & ->%matches_eps_inv).
    exists prefix, ws1, word, ws2, post. simpl. rewrite <- !app_assoc. simpl.
    by repeat split.
  - intros (prefix & ws1 & word & ws2 & rest & -> & Hprefix & Hws1 & Hne & Hword & Hne2 & Hws2).
    exists [], (prefix ++ ws1 ++ word ++ ws2 ++ ["{"%char]), rest. split.
    { simpl. by rewrite <- !app_assoc. }
    apply (M_Seq _ _ _ _ [] _ rest); [by constructor|].
    apply (M_Seq _ _ _ _ prefix _ rest); [by apply matches_star_chr|].
    apply (M_Seq _ _ _ _ ws1 _ rest); [by apply matches_star_chr|].
    apply (M_Seq _ _ _ _ word _ rest); [by apply matches_plus_chr|].
    apply (M_Seq _ _ _ _ ws2 _ rest); [by apply matches_plus_chr|].
    apply (M_Seq _ _ _ _ ["{"%char] [] rest); [|constructor].
    apply (M_Seq _ _ _ _ ["{"%char] [] rest); [by constructor|constructor].
Qed.

Lemma curly_close_spec (text : string) :
  re_search no_flags re_curly_close text = true ↔
  ∃ before ws : list ascii,
    list_ascii_of_string text = before ++ "}"%char :: ws ∧ all_space ws.
Proof.
  rewrite re_search_correct. unfold found_in, re_curly_close, Cat. simpl. split.
  - intros (pre & w & post & -> & H).
    apply matches_seq_inv in H as (body & w1 & -> & _ & H).
    apply matches_seq_inv in H as (br & w2 & -> & Hbr%matches_lit & H); [|done].
    apply matches_seq_inv in H as (ws & w3 & -> & Hws%matches_star_chr & H).
    apply matches_seq_inv in H as (w5 & w6 & -> & [-> He]%matches_eol_inv & ->%matches_eps_inv).
    subst br. exists (pre ++ body), (ws ++ post). split.
    { simpl. rewrite <- !app_assoc. simpl. by rewrite <- !app_assoc. }
    apply Forall_app. split; [done|].
    simpl in He. apply at_eol_plain in He as [->| ->]; [constructor|apply all_space_newline].
  - intros (before & ws & -> & Hws).
    exists before, ("}"%char :: ws), []. split.
    { by rewrite app_nil_r. }
    apply (M_Seq _ _ _ _ [] _ []); [constructor|].
    apply (M_Seq _ _ _ _ ["}"%char] ws []); [by apply (matches_lit _ "}")|].
    rewrite <- (app_nil_r ws).
    apply (M_Seq _ _ _ _ ws [] []); [by apply matches_star_chr|].
    apply (M_Seq _ _ _ _ [] [] []); constructor. done.
Qed.

(** The brace test *)
Theorem looks_like_curly_spec (text : string) :
  looks_like_curly text = true ↔ has_brace_block (list_ascii_of_string text).
Proof.
  unfold looks_like_curly, has_brace_block.
  by rewrite andb_true_iff, curly_open_spec, curly_close_spec.
Qed.

(** ** Load: content-shape resolution *)

Lemma lset_from_rexp_shape (text : string) (kvargs : gmap string value) :
  _lset_from_rexp text kvargs =
  match content_shape text with
  | Some f => <["format" := VStr f]> kvargs
  | None => kvargs
  end.
Proof.
  unfold _lset_from_rexp, content_shape, looks_like_xml, looks_like_set, looks_like_curly.
  destruct (re_search MULTILINE re_xml text); [done|].
  destruct (re_search no_flags re_set text); [done|].
  by destruct (re_search IGNORECASE re_curly_open text && re_search no_flags re_curly_close text).
Qed.

Lemma dict_has_insert (d : gmap string value) (k : string) (v : value) :
  dict_has (<[k := v]> d) k = true.
Proof. unfold dict_has. by rewrite lookup_insert_eq. Qed.

Lemma dict_has_None (d : gmap string value) (k : string) :
  d !! k = None → dict_has d k = false.
Proof. unfold dict_has. by intros ->. Qed.

Lemma dict_has_Some (d : gmap string value) (k : string) (v : value) :
  d !! k = Some v → dict_has d k = true.
Proof. unfold dict_has. by intros ->. Qed.

(** A successful [_lset_format] leaves a format in [kvargs]. *)
Lemma lset_format_has_format (ow : value) (kv x kv' x' : gmap string value) :
  _lset_format ow kv x = Ok (kv', x') → dict_has kv' "format" = true.
Proof.
  unfold _lset_format, dict_item.
  destruct (kv !! "format") as [f|] eqn:Hf; [|done].
  destruct (eq_str f "set").
  - destruct (eq_True ow); [done|]. intros [= <- <-]. apply dict_has_insert.
  - intros [= <- <-]. by apply dict_has_Some with f.
Qed.

Lemma load_xattrs_init_insert_format (kvargs : gmap string value) (f : value) :
  load_xattrs_init (<["format" := f]> kvargs) = load_xattrs_init kvargs.
Proof.
  unfold load_xattrs_init, dict_get_default, dict_get.
  by rewrite !lookup_insert_ne by done.
Qed.

(** C3.  For a directly supplied string and no explicit format, the format
    is resolved by three tests in this order: a line opening with a tag
    and closing with [>] gives xml; a leading set, delete, replace or
    rename followed by white space gives set; an identifier followed by
    [{] together with a closing [}] gives text.  When a test succeeds the
    load goes on exactly as with that format given explicitly; when none
    does, the load raises the error telling the caller to give the
    format, with no remote call made and no format assumed. *)
Theorem load_content_shape (E : Env) (text : string) (rest : list value)
    (kvargs : gmap string value) :
  kvargs !! "format" = None →
  _lset_from_rexp text kvargs !! "format" =
    (if looks_like_xml text then Some (VStr "xml")
     else if looks_like_set text then Some (VStr "set")
     else if looks_like_curly text then Some (VStr "text")
     else None) ∧
  (looks_like_xml text = true ↔ has_tag_line (list_ascii_of_string text)) ∧
  (looks_like_set text = true ↔ starts_with_set_keyword (list_ascii_of_string text)) ∧
  (looks_like_curly text = true ↔ has_brace_block (list_ascii_of_string text)) ∧
  match _lset_from_rexp text kvargs !! "format" with
  | Some f =>
      run (load E (VStr text :: rest) kvargs) =
      run (load E (VStr text :: rest) (<["format" := f]> kvargs))
  | None =>
      run (load E (VStr text :: rest) kvargs) = (Raise cannot_resolve_format, [])
  end.
Proof.
  intros Hnone. rewrite lset_from_rexp_shape.
  split; [|split; [|split; [|split]]].
  - unfold content_shape.
    destruct (looks_like_xml text); [by rewrite lookup_insert_eq|].
    destruct (looks_like_set text); [by rewrite lookup_insert_eq|].
    destruct (looks_like_curly text); [by rewrite lookup_insert_eq|done].
  - apply looks_like_xml_spec.
  - apply looks_like_set_spec.
  - apply looks_like_curly_spec.
  - destruct (content_shape text) as [f|] eqn:Hshape.
    + rewrite lookup_insert_eq.
      unfold load, run. rewrite dict_has_insert, (dict_has_None kvargs "format") by done.
      rewrite load_xattrs_init_insert_format.
      unfold dict_get_default. rewrite lookup_insert_ne by done.
      unfold bind at 1, ret at 1. cbn [negb].
      rewrite (dict_has_None kvargs "format") by done. cbn [negb].
      rewrite lset_from_rexp_shape, Hshape, dict_has_insert.
      unfold bind, lift.
      destruct (_lset_format _ _ _) as [[kv' x']|e] eqn:Hset; [|done].
      by rewrite (lset_format_has_format _ _ _ _ _ Hset).
    + rewrite Hnone. unfold load, run.
      rewrite (dict_has_None kvargs "format") by done.
      unfold bind at 1, ret at 1. cbn [negb].
      rewrite (dict_has_None kvargs "format") by done. cbn [negb].
      rewrite lset_from_rexp_shape, Hshape.
      by rewrite (dict_has_None kvargs "format").
Qed.

Lemma load_content_shape_witness :
  run (load quiet_env [VStr "set system host-name foo"] ∅) =
  run (load quiet_env [VStr "set system host-name foo"] {["format" := VStr "set"]}).
Proof.
  pose proof (load_content_shape quiet_env "set system host-name foo" [] ∅ eq_refl)
    as (_ & _ & _ & _ & H).
  exact H.
Defined.

(** The examples of the specification. *)
Example content_shape_examples :
  content_shape "<a>b</a>" = Some "xml" ∧
  content_shape "set system host-name foo" = Some "set" ∧
  content_shape ("system {" +:+ nl +:+ " host-name foo;" +:+ nl +:+ "}") = Some "text" ∧
  content_shape "just a sentence" = None ∧
  content_shape ("set system host-name foo" +:+ nl +:+ "<a>") = Some "xml".
Proof. repeat split; vm_compute; reflexivity. Qed.

Example load_sentence_fails :
  run (load quiet_env [VStr "just a sentence"] ∅) = (Raise cannot_resolve_format, []).
Proof. vm_compute. reflexivity. Qed.

(** ** Load: the request descriptor *)

Lemma try_load_trace (E : Env) (contents : value) (xattrs : gmap string value) :
  snd (run (try_load E contents xattrs)) = [Rpc "load_config" [contents] xattrs].
Proof.
  unfold try_load. rewrite run_try_catch_call.
  destruct (rpc_exec E _) as [v|e]; [done|]. by destruct e.
Qed.

(** Set-style with overwrite is refused by [_lset_format]. *)
Lemma lset_format_conflict (ow : value) (kv x : gmap string value) (f : value) :
  kv !! "format" = Some f → eq_str f "set" = true → eq_True ow = true →
  _lset_format ow kv x = Raise conflicting_args.
Proof.
  intros Hf Hset How. unfold _lset_format, dict_item. by rewrite Hf, Hset, How.
Qed.

Lemma lset_fromfile_conflict (ow path : value) (kv x : gmap string value) :
  kv !! "format" = None → _lformat_byext path = Ok "set" → eq_True ow = true →
  _lset_fromfile ow path kv x = Raise conflicting_args.
Proof.
  intros Hf Hext How. unfold _lset_fromfile.
  rewrite (dict_has_None kv "format"), Hext by done. cbn [negb].
  by rewrite (lset_format_conflict ow _ x (VStr "set")); [|apply lookup_insert_eq|..].
Qed.

Lemma load_from_text_conflict (E : Env) (ow path : value) (text : string)
    (kv x : gmap string value) :
  kv !! "format" = None → _lformat_byext path = Ok "set" → eq_True ow = true →
  load_from_text E ow path text kv x [] = (Raise conflicting_args, []).
Proof.
  intros Hf Hext How. unfold load_from_text, bind, lift.
  by rewrite lset_fromfile_conflict.
Qed.

Lemma lformat_byext_set (path : value) (f : string) :
  _lformat_byext path = Ok f → eq_str (VStr f) "set" = true → _lformat_byext path = Ok "set".
Proof. simpl. intros -> Heq. by apply String.eqb_eq in Heq as ->. Qed.

(** The extension table. *)
Example lformat_byext_table :
  _lformat_byext (VStr "base.xml") = Ok "xml" ∧
  _lformat_byext (VStr "/var/tmp/base.conf") = Ok "text" ∧
  _lformat_byext (VStr "base.text") = Ok "text" ∧
  _lformat_byext (VStr "base.txt") = Ok "text" ∧
  _lformat_byext (VStr "base.set") = Ok "set" ∧
  _lformat_byext (VStr "base.foo") =
    Raise (Builtin "ValueError" "Unknown file contents from extension: .foo") ∧
  _lformat_byext (VStr "conf.d/.set") =
    Raise (Builtin "ValueError" "Unknown file contents from extension: ").
Proof. repeat split; vm_compute; reflexivity. Qed.

(** C2.  A load that asks for overwrite and whose format resolves to
    set-style fails with the ValueError naming the conflicting arguments,
    and no remote call is made.  For a file or template source the format
    is resolved once the content has been read or rendered. *)
Theorem load_set_overwrite_conflict (E : Env) (vargs : list value)
    (kvargs : gmap string value) :
  overwrite_requested kvargs = true →
  is_set_style (resolved_format vargs kvargs) = true →
  (kvargs !! "format" = None → vargs = [] → content_obtained E kvargs) →
  run (load E vargs kvargs) = (Raise conflicting_args, []).
Proof.
  unfold overwrite_requested, resolved_format, is_set_style, run, load.
  intros How Hset Hsrc.
  destruct (kvargs !! "format") as [f|] eqn:Hf.
  - rewrite (dict_has_Some kvargs "format" f) by done.
    unfold bind, lift. by rewrite (lset_format_conflict _ _ _ f).
  - rewrite (dict_has_None kvargs "format") by done.
    unfold bind at 1, ret at 1.
    destruct vargs as [|[| | |text| | |] rest]; try done.
    + specialize (Hsrc eq_refl eq_refl). unfold content_obtained, source_path in *.
      destruct (kvargs !! "path") as [p|].
      { destruct Hsrc as [text Hread]. unfold bind at 1, lift at 1. rewrite Hread.
        destruct (_lformat_byext p) as [ext|] eqn:Hext; [|done].
        apply load_from_text_conflict; eauto using lformat_byext_set. }
      destruct (kvargs !! "template_path") as [p|].
      { destruct Hsrc as (t & text & Htpl & Hrender).
        unfold bind at 1, lift at 1. rewrite Htpl.
        unfold bind at 1, lift at 1. rewrite Hrender.
        destruct (_lformat_byext p) as [ext|] eqn:Hext; [|done].
        apply load_from_text_conflict; eauto using lformat_byext_set. }
      destruct (kvargs !! "template") as [[| | | | | |t]|]; try done.
      destruct Hsrc as [text Hrender].
      unfold bind at 1, lift at 1, template_filename.
      unfold bind at 1, lift at 1. rewrite Hrender.
      destruct (_lformat_byext (opt_str (filename t))) as [ext|] eqn:Hext; [|done].
      apply load_from_text_conflict; eauto using lformat_byext_set.
    + rewrite (dict_has_None kvargs "format") by done. cbn [negb].
      rewrite lset_from_rexp_shape.
      destruct (content_shape text) as [f|]; [|done].
      rewrite dict_has_insert. unfold bind, lift.
      by rewrite (lset_format_conflict _ _ _ (VStr f)); [|apply lookup_insert_eq|..].
Qed.

Lemma load_set_overwrite_conflict_witness :
  run (load quiet_env [] {["path" := VStr "/etc/junos/base.set"; "overwrite" := VBool true]}) =
  (Raise conflicting_args, []).
Proof.
  apply load_set_overwrite_conflict.
  - reflexivity.
  - reflexivity.
  - intros _ _. by exists "set system host-name foo".
Defined.

Example load_explicit_set_overwrite :
  run (load quiet_env [VStr "set system host-name foo"]
         {["format" := VStr "set"; "overwrite" := VBool true]}) =
  (Raise (Builtin "ValueError" "conflicting args, cannot use 'set' with 'overwrite'"), []).
Proof. vm_compute. reflexivity. Qed.

Lemma load_xattrs_init_action (kvargs : gmap string value) :
  load_xattrs_init kvargs !! "action" =
  spec_action false (overwrite_requested kvargs) (merge_requested kvargs).
Proof.
  unfold load_xattrs_init, spec_action, overwrite_requested, merge_requested.
  destruct (eq_True _); [by simplify_map_eq|].
  destruct (is_True _); by simplify_map_eq.
Qed.

Lemma load_xattrs_init_format (kvargs : gmap string value) :
  load_xattrs_init kvargs !! "format" = Some (VStr "xml").
Proof.
  unfold load_xattrs_init.
  destruct (eq_True _); [by simplify_map_eq|].
  destruct (is_True _); by simplify_map_eq.
Qed.

(** What [_lset_format] makes of the initial attributes. *)
Lemma lset_format_xattrs (kvargs kv kv' x' : gmap string value) (f : value) :
  kv !! "format" = Some f →
  _lset_format (dict_get_default kvargs "overwrite" (VBool false)) kv
    (load_xattrs_init kvargs) = Ok (kv', x') →
  x' !! "action" =
    spec_action (eq_str f "set") (overwrite_requested kvargs) (merge_requested kvargs) ∧
  x' !! "format" = Some (wire_format (Some f)).
Proof.
  intros Hf. unfold _lset_format, dict_item, wire_format. rewrite Hf.
  fold (overwrite_requested kvargs).
  destruct (eq_str f "set") eqn:Hset.
  - destruct (overwrite_requested kvargs); [done|].
    intros [= <- <-]. by simplify_map_eq.
  - intros [= <- <-]. rewrite lookup_insert_ne by done.
    rewrite load_xattrs_init_action. by simplify_map_eq.
Qed.

Lemma load_from_text_call (E : Env) (ow path : value) (text : string)
    (kv x : gmap string value) (c : rpc_call) :
  c ∈ snd (load_from_text E ow path text kv x []) →
  ∃ kv' x' contents,
    _lset_fromfile ow path kv x = Ok (kv', x') ∧ c = Rpc "load_config" [contents] x'.
Proof.
  unfold load_from_text, bind, lift.
  destruct (_lset_fromfile ow path kv x) as [[kv' x']|e]; [|by intros ?%elem_of_nil].
  destruct (dict_item x' "format") as [fmt|e]; [|by intros ?%elem_of_nil].
  destruct (eq_str fmt "xml").
  - destruct (parse_xml E text) as [doc|e]; [|by intros ?%elem_of_nil].
    intros Hc. exists kv', x', doc. split; [done|].
    pose proof (try_load_trace E doc x') as Ht. unfold run in Ht.
    rewrite Ht in Hc. by apply list_elem_of_singleton in Hc.
  - unfold ret. intros Hc. exists kv', x', (VStr text). split; [done|].
    pose proof (try_load_trace E (VStr text) x') as Ht. unfold run in Ht.
    rewrite Ht in Hc. by apply list_elem_of_singleton in Hc.
Qed.

(** The attributes a file-like source ends up with, when no format was
    given explicitly. *)
Lemma lset_fromfile_xattrs (kvargs kv' x' : gmap string value) (path : value) :
  kvargs !! "format" = None →
  _lset_fromfile (dict_get_default kvargs "overwrite" (VBool false)) path kvargs
    (load_xattrs_init kvargs) = Ok (kv', x') →
  ∃ f, _lformat_byext path = Ok f ∧
    x' !! "action" =
      spec_action (eq_str (VStr f) "set") (overwrite_requested kvargs) (merge_requested kvargs) ∧
    x' !! "format" = Some (wire_format (Some (VStr f))).
Proof.
  intros Hf. unfold _lset_fromfile.
  rewrite (dict_has_None kvargs "format") by done. cbn [negb].
  destruct (_lformat_byext path) as [f|e]; [|done].
  intros Hset. exists f. split; [done|].
  eapply lset_format_xattrs; [|done]. apply lookup_insert_eq.
Qed.

(** C1.  Every request a load transmits carries the action marker of the
    specification: [set], with the wire format [text], when the resolved
    format is set-style; otherwise [override] when overwrite is requested;
    otherwise no marker at all when merge is requested; otherwise
    [replace]. *)
Theorem load_action_marker (E : Env) (vargs : list value) (kvargs : gmap string value)
    (c : rpc_call) :
  c ∈ snd (run (load E vargs kvargs)) →
  rpc_name c = "load_config" ∧
  rpc_kwargs c !! "action" =
    spec_action (is_set_style (resolved_format vargs kvargs))
      (overwrite_requested kvargs) (merge_requested kvargs) ∧
  rpc_kwargs c !! "format" = Some (wire_format (resolved_format vargs kvargs)).
Proof.
  unfold resolved_format, is_set_style, run, load.
  destruct (kvargs !! "format") as [f|] eqn:Hf.
  - rewrite (dict_has_Some kvargs "format" f) by done.
    unfold bind at 1, lift at 1.
    destruct (_lset_format _ _ _) as [[kv' x']|e] eqn:Hset; [|by intros ?%elem_of_nil].
    pose proof (lset_format_xattrs _ _ _ _ _ Hf Hset) as [Hact Hfmt].
    pose proof (lset_format_has_format _ _ _ _ _ Hset) as Hhas.
    assert (∀ contents, c ∈ snd (try_load E contents x' []) →
      rpc_name c = "load_config" ∧
      rpc_kwargs c !! "action" =
        spec_action (eq_str f "set") (overwrite_requested kvargs) (merge_requested kvargs) ∧
      rpc_kwargs c !! "format" = Some (wire_format (Some f))) as Hsent.
    { intros contents Hc. pose proof (try_load_trace E contents x') as Ht.
      unfold run in Ht. rewrite Ht in Hc. by apply list_elem_of_singleton in Hc as ->. }
    assert (∀ path text, c ∈ snd (load_from_text E
        (dict_get_default kvargs "overwrite" (VBool false)) path text kv' x' []) →
      rpc_name c = "load_config" ∧
      rpc_kwargs c !! "action" =
        spec_action (eq_str f "set") (overwrite_requested kvargs) (merge_requested kvargs) ∧
      rpc_kwargs c !! "format" = Some (wire_format (Some f))) as Hfile.
    { intros path text Hc.
      apply load_from_text_call in Hc as (kv2 & x2 & contents & Hff & ->).
      unfold _lset_fromfile in Hff. rewrite Hhas in Hff. by injection Hff as <- <-. }
    destruct vargs as [|v rest].
    + destruct (kv' !! "path") as [p|].
      { unfold bind at 1, lift at 1.
        destruct (open_read E p); [apply Hfile|by intros ?%elem_of_nil]. }
      destruct (kv' !! "template_path") as [p|].
      { unfold bind at 1, lift at 1.
        destruct (dev_Template E p) as [t|]; [|by intros ?%elem_of_nil].
        unfold bind at 1, lift at 1.
        destruct (render E t _); [apply Hfile|by intros ?%elem_of_nil]. }
      destruct (kv' !! "template") as [t|]; [|by intros ?%elem_of_nil].
      unfold bind at 1, lift at 1.
      destruct (template_filename t) as [p|]; [|by intros ?%elem_of_nil].
      unfold bind at 1, lift at 1.
      destruct (render E t _); [apply Hfile|by intros ?%elem_of_nil].
    + destruct v as [| | |text| | |]; try apply Hsent.
      rewrite Hhas. cbn [negb]. unfold bind at 1, ret at 1.
      unfold bind at 1, lift at 1.
      destruct (dict_item kv' "format") as [fmt|]; [|by intros ?%elem_of_nil].
      unfold bind at 1.
      destruct (eq_str fmt "xml").
      * unfold lift. destruct (parse_xml E text); [apply Hsent|by intros ?%elem_of_nil].
      * unfold ret. apply Hsent.
  - rewrite (dict_has_None kvargs "format") by done.
    unfold bind at 1, ret at 1.
    assert (∀ contents, c ∈ snd (try_load E contents (load_xattrs_init kvargs) []) →
      rpc_name c = "load_config" ∧
      rpc_kwargs c !! "action" =
        spec_action false (overwrite_requested kvargs) (merge_requested kvargs) ∧
      rpc_kwargs c !! "format" = Some (wire_format None)) as Hsent.
    { intros contents Hc. pose proof (try_load_trace E contents (load_xattrs_init kvargs)) as Ht.
      unfold run in Ht. rewrite Ht in Hc. apply list_elem_of_singleton in Hc as ->.
      simpl. by rewrite load_xattrs_init_action, load_xattrs_init_format. }
    assert (∀ path text, c ∈ snd (load_from_text E
        (dict_get_default kvargs "overwrite" (VBool false)) path text kvargs
        (load_xattrs_init kvargs) []) →
      rpc_name c = "load_config" ∧
      rpc_kwargs c !! "action" =
        spec_action
          match match _lformat_byext path with Ok f => Some (VStr f) | Raise _ => None end with
          | Some f => eq_str f "set" | None => false end
          (overwrite_requested kvargs) (merge_requested kvargs) ∧
      rpc_kwargs c !! "format" =
        Some (wire_format
          match _lformat_byext path with Ok f => Some (VStr f) | Raise _ => None end)) as Hfile.
    { intros path text Hc.
      apply load_from_text_call in Hc as (kv2 & x2 & contents & Hff & ->).
      apply lset_fromfile_xattrs in Hff as (f & -> & Hact & Hfmt); done. }
    destruct vargs as [|v rest].
    + unfold source_path.
      destruct (kvargs !! "path") as [p|].
      { unfold bind at 1, lift at 1.
        destruct (open_read E p); [apply Hfile|by intros ?%elem_of_nil]. }
      destruct (kvargs !! "template_path") as [p|].
      { unfold bind at 1, lift at 1.
        destruct (dev_Template E p) as [t|]; [|by intros ?%elem_of_nil].
        unfold bind at 1, lift at 1.
        destruct (render E t _); [apply Hfile|by intros ?%elem_of_nil]. }
      destruct (kvargs !! "template") as [t|]; [|by intros ?%elem_of_nil].
      unfold bind at 1, lift at 1.
      destruct t as [| | | | | |t]; try by intros ?%elem_of_nil.
      unfold template_filename.
      unfold bind at 1, lift at 1.
      destruct (render E (VTemplate t) _); [apply Hfile|by intros ?%elem_of_nil].
    + destruct v as [| | |text| | |]; try apply Hsent.
      rewrite (dict_has_None kvargs "format") by done. cbn [negb].
      rewrite lset_from_rexp_shape.
      destruct (content_shape text) as [f|];
        [|rewrite (dict_has_None kvargs "format") by done; by intros ?%elem_of_nil].
      rewrite dict_has_insert.
      unfold bind at 1, lift at 1.
      destruct (_lset_format _ _ _) as [[kv' x']|e] eqn:Hset; [|by intros ?%elem_of_nil].
      pose proof (lset_format_xattrs _ _ _ _ (VStr f) (lookup_insert_eq _ _ _) Hset)
        as [Hact Hfmt].
      unfold bind at 1, lift at 1.
      destruct (dict_item kv' "format") as [fmt|]; [|by intros ?%elem_of_nil].
      assert (∀ contents, c ∈ snd (try_load E contents x' []) →
        rpc_name c = "load_config" ∧
        rpc_kwargs c !! "action" =
          spec_action (eq_str (VStr f) "set") (overwrite_requested kvargs)
            (merge_requested kvargs) ∧
        rpc_kwargs c !! "format" = Some (wire_format (Some (VStr f)))) as Hsent'.
      { intros contents Hc. pose proof (try_load_trace E contents x') as Ht.
        unfold run in Ht. rewrite Ht in Hc. by apply list_elem_of_singleton in Hc as ->. }
      unfold bind at 1.
      destruct (eq_str fmt "xml").
      * unfold lift. destruct (parse_xml E text); [apply Hsent'|by intros ?%elem_of_nil].
      * unfold ret. apply Hsent'.
Qed.

Lemma load_action_marker_witness :
  let c := Rpc "load_config" [VStr "set system host-name foo"]
             {["action" := VStr "set"; "format" := VStr "text"]} in
  c ∈ snd (run (load quiet_env [VStr "set system host-name foo"] ∅)) ∧
  rpc_name c = "load_config" ∧
  rpc_kwargs c !! "action" = Some (VStr "set") ∧
  rpc_kwargs c !! "format" = Some (VStr "text").
Proof.
  assert (Rpc "load_config" [VStr "set system host-name foo"]
            {["action" := VStr "set"; "format" := VStr "text"]}
          ∈ snd (run (load quiet_env [VStr "set system host-name foo"] ∅))) as Hc.
  { vm_compute. apply list_elem_of_here. }
  split; [exact Hc|].
  exact (load_action_marker quiet_env [VStr "set system host-name foo"] ∅ _ Hc).
Defined.

(** The examples of the specification: merge omits the marker, no flag
    gives replace, overwrite gives override. *)
Example load_action_examples :
  let text := VStr "system { host-name foo; }" in
  snd (run (load quiet_env [text] {["merge" := VBool true]})) =
    [Rpc "load_config" [text] {["format" := VStr "text"]}] ∧
  snd (run (load quiet_env [text] ∅)) =
    [Rpc "load_config" [text] {["format" := VStr "text"; "action" := VStr "replace"]}] ∧
  snd (run (load quiet_env [text] {["overwrite" := VBool true]})) =
    [Rpc "load_config" [text] {["format" := VStr "text"; "action" := VStr "override"]}].
Proof. repeat split; vm_compute; reflexivity. Qed.

(** The end-to-end scenario: structured content is parsed before it is sent. *)
Example load_structured_text :
  let text := "<configuration><system><host-name>foo</host-name></system></configuration>" in
  snd (run (load quiet_env [VStr text] ∅)) =
    [Rpc "load_config" [VElem (Element "configuration" (Some text) [])]
       {["format" := VStr "xml"; "action" := VStr "replace"]}].
Proof. vm_compute. reflexivity. Qed.

(** ** Load: the overwrite option *)

Lemma agree_insert (kv1 kv2 : gmap string value) (k : string) (v : value) :
  agree kv1 kv2 → agree (<[k := v]> kv1) (<[k := v]> kv2).
Proof.
  intros H k' Hk'. destruct (decide (k = k')) as [->|Hne].
  - by rewrite !lookup_insert_eq.
  - rewrite !lookup_insert_ne by done. by apply H.
Qed.

Lemma agree_dict_has (kv1 kv2 : gmap string value) (k : string) :
  agree kv1 kv2 → k ≠ "overwrite" → dict_has kv1 k = dict_has kv2 k.
Proof. intros H Hk. unfold dict_has. by rewrite (H k Hk). Qed.

Lemma lset_format_agree (o1 o2 : value) (kv1 kv2 x : gmap string value) :
  agree kv1 kv2 → eq_True o1 = eq_True o2 →
  agree_result (_lset_format o1 kv1 x) (_lset_format o2 kv2 x).
Proof.
  intros H Ho. unfold _lset_format, dict_item.
  rewrite <- (H "format") by done.
  destruct (kv1 !! "format") as [f|]; [|done].
  destruct (eq_str f "set").
  - rewrite <- Ho. destruct (eq_True o1); [done|].
    split; [by apply agree_insert|done].
  - by split.
Qed.

Lemma lset_fromfile_agree (o1 o2 path : value) (kv1 kv2 x : gmap string value) :
  agree kv1 kv2 → eq_True o1 = eq_True o2 →
  agree_result (_lset_fromfile o1 path kv1 x) (_lset_fromfile o2 path kv2 x).
Proof.
  intros H Ho. unfold _lset_fromfile.
  rewrite <- (agree_dict_has kv1 kv2 "format") by done.
  destruct (dict_has kv1 "format"); [by split|]. cbn [negb].
  destruct (_lformat_byext path) as [f|e]; [|done].
  apply lset_format_agree; [by apply agree_insert|done].
Qed.

Lemma load_from_text_agree (E : Env) (o1 o2 path : value) (text : string)
    (kv1 kv2 x : gmap string value) (t : list rpc_call) :
  agree kv1 kv2 → eq_True o1 = eq_True o2 →
  load_from_text E o1 path text kv1 x t = load_from_text E o2 path text kv2 x t.
Proof.
  intros H Ho. unfold load_from_text, bind, lift.
  pose proof (lset_fromfile_agree o1 o2 path kv1 kv2 x H Ho) as Hrel.
  destruct (_lset_fromfile o1 path kv1 x) as [[a x1]|e1],
           (_lset_fromfile o2 path kv2 x) as [[b x2]|e2]; try done.
  - by destruct Hrel as [_ ->].
  - simpl in Hrel. by subst.
Qed.

Lemma load_xattrs_init_agree (kv1 kv2 : gmap string value) :
  agree kv1 kv2 →
  eq_True (dict_get_default kv1 "overwrite" (VBool false)) =
  eq_True (dict_get_default kv2 "overwrite" (VBool false)) →
  load_xattrs_init kv1 = load_xattrs_init kv2.
Proof.
  intros H Ho. unfold load_xattrs_init, dict_get. rewrite Ho.
  by rewrite (H "merge").
Qed.

Lemma bind_agree {B} (m1 m2 : M load_state) (k1 k2 : load_state → M B)
    (t : list rpc_call) :
  agree_result (fst (m1 t)) (fst (m2 t)) → snd (m1 t) = snd (m2 t) →
  (∀ a b x t', agree a b → k1 (a, x) t' = k2 (b, x) t') →
  bind m1 k1 t = bind m2 k2 t.
Proof.
  unfold bind.
  destruct (m1 t) as [[[a x1]|e1] t1], (m2 t) as [[[b x2]|e2] t2]; simpl; try done.
  - intros [Hab ->] -> Hk. by apply Hk.
  - by intros -> ->.
Qed.

(** [load] reads [kvargs] key by key, and [overwrite] only through its
    comparison with [True]. *)
Lemma load_agree (E : Env) (vargs : list value) (kv1 kv2 : gmap string value)
    (t : list rpc_call) :
  agree kv1 kv2 →
  eq_True (dict_get_default kv1 "overwrite" (VBool false)) =
  eq_True (dict_get_default kv2 "overwrite" (VBool false)) →
  load E vargs kv1 t = load E vargs kv2 t.
Proof.
  intros H Ho. unfold load.
  rewrite (load_xattrs_init_agree kv1 kv2 H Ho).
  set (o1 := dict_get_default kv1 "overwrite" (VBool false)) in *.
  set (o2 := dict_get_default kv2 "overwrite" (VBool false)) in *.
  set (x0 := load_xattrs_init kv2).
  apply bind_agree.
  { rewrite <- (agree_dict_has kv1 kv2 "format") by done.
    destruct (dict_has kv1 "format"); unfold lift, ret; simpl; [|done].
    by apply lset_format_agree. }
  { rewrite <- (agree_dict_has kv1 kv2 "format") by done.
    by destruct (dict_has kv1 "format"). }
  clear t. intros a b x t Hab.
  destruct vargs as [|v rest].
  - rewrite <- (Hab "path"), <- (Hab "template_path"), <- (Hab "template") by done.
    unfold dict_get_default. rewrite <- (Hab "template_vars") by done.
    destruct (a !! "path") as [p|].
    { unfold bind, lift. destruct (open_read E p); [|done].
      by apply load_from_text_agree. }
    destruct (a !! "template_path") as [p|].
    { unfold bind, lift. destruct (dev_Template E p) as [tpl|]; [|done].
      destruct (render E tpl _); [|done]. by apply load_from_text_agree. }
    destruct (a !! "template") as [tpl|]; [|done].
    unfold bind, lift. destruct (template_filename tpl); [|done].
    destruct (render E tpl _); [|done]. by apply load_from_text_agree.
  - destruct v as [| | |text| | |]; try done.
    apply bind_agree.
    + rewrite <- (agree_dict_has a b "format") by done.
      destruct (dict_has a "format"); cbn [negb]; [by split|].
      assert (agree (_lset_from_rexp text a) (_lset_from_rexp text b)) as Hab'.
      { rewrite !lset_from_rexp_shape.
        destruct (content_shape text); [by apply agree_insert|done]. }
      rewrite <- (agree_dict_has _ _ "format" Hab') by done.
      destruct (dict_has (_lset_from_rexp text a) "format"); [|done].
      by apply lset_format_agree.
    + rewrite <- (agree_dict_has a b "format") by done.
      destruct (dict_has a "format"); cbn [negb]; [done|].
      assert (agree (_lset_from_rexp text a) (_lset_from_rexp text b)) as Hab'.
      { rewrite !lset_from_rexp_shape.
        destruct (content_shape text); [by apply agree_insert|done]. }
      rewrite <- (agree_dict_has _ _ "format" Hab') by done.
      by destruct (dict_has (_lset_from_rexp text a) "format").
    + clear. intros a b x t Hab. unfold dict_item.
      by rewrite <- (Hab "format").
Qed.

(** C10.  In [load] the overwrite option acts only through its comparison
    with [True].  With any other value, a truthy one such as the string
    'true' included, the load runs exactly as with overwrite absent: the
    first step leaves the default action [replace] in place (merge not
    requested), and a set-style format is accepted without the conflict
    error, giving the action [set] and the wire format [text]. *)
Theorem load_overwrite_only_True (E : Env) (vargs : list value)
    (kvargs : gmap string value) (v : value) :
  eq_True v = false →
  run (load E vargs (<["overwrite" := v]> kvargs)) =
    run (load E vargs (delete "overwrite" kvargs)) ∧
  load_xattrs_init (<["overwrite" := v]> kvargs) !! "action" =
    (if merge_requested kvargs then None else Some (VStr "replace")) ∧
  (∀ kv x : gmap string value,
     kv !! "format" = Some (VStr "set") →
     _lset_format v kv x =
       Ok (<["format" := VStr "text"]> kv,
           <["format" := VStr "text"]> (<["action" := VStr "set"]> x))).
Proof.
  intros Hv. split; [|split].
  - apply load_agree.
    + intros k Hk. by rewrite lookup_insert_ne, lookup_delete_ne.
    + unfold dict_get_default. by rewrite lookup_insert_eq, lookup_delete_eq.
  - rewrite load_xattrs_init_action. unfold overwrite_requested, merge_requested, dict_get_default, dict_get.
    rewrite lookup_insert_eq, lookup_insert_ne by done. simpl. by rewrite Hv.
  - intros kv x Hf. unfold _lset_format, dict_item. rewrite Hf. simpl. by rewrite Hv.
Qed.

Lemma load_overwrite_only_True_witness :
  eq_True (VStr "true") = false ∧
  run (load quiet_env [VStr "set system host-name foo"] (<["overwrite" := VStr "true"]> ∅)) =
    run (load quiet_env [VStr "set system host-name foo"] (delete "overwrite" ∅)).
Proof.
  split; [reflexivity|].
  exact (proj1 (load_overwrite_only_True quiet_env [VStr "set system host-name foo"] ∅
                  (VStr "true") eq_refl)).
Defined.

Example load_overwrite_string :
  snd (run (load quiet_env [VStr "system { host-name foo; }"] {["overwrite" := VStr "true"]})) =
    [Rpc "load_config" [VStr "system { host-name foo; }"]
       {["format" := VStr "text"; "action" := VStr "replace"]}] ∧
  snd (run (load quiet_env [VStr "set system host-name foo"] {["overwrite" := VStr "true"]})) =
    [Rpc "load_config" [VStr "set system host-name foo"]
       {["format" := VStr "text"; "action" := VStr "set"]}] ∧
  snd (run (load quiet_env [VStr "system { host-name foo; }"] {["overwrite" := VInt 1]})) =
    [Rpc "load_config" [VStr "system { host-name foo; }"]
       {["format" := VStr "text"; "action" := VStr "override"]}].
Proof. repeat split; vm_compute; reflexivity. Qed.

(** * Further properties *)

Ltac commit_args_cases E kvargs :=
  unfold commit_rpc_args; cbv zeta;
  destruct (truthy (dict_get kvargs "full")),
           (truthy (dict_get kvargs "force_sync")),
           (truthy (dict_get kvargs "sync")),
           (truthy (dict_get kvargs "timeout")),
           (truthy (dict_get kvargs "confirm")),
           (negb (String.eqb "True" (py_str (repr_obj E) (dict_get kvargs "confirm")))),
           (truthy (dict_get kvargs "comment")).

(** X1.  A commit asks for [force-synchronize] exactly when [force_sync] is
    truthy, and for [synchronize] exactly when [force_sync] or [sync] is:
    a request never forces synchronization without synchronizing. *)
Theorem commit_sync_args (E : Env) (kvargs : gmap string value) :
  let force_sync := truthy (dict_get kvargs "force_sync") in
  let sync := truthy (dict_get kvargs "sync") in
  let rpc_args := commit_rpc_args E kvargs in
  rpc_args !! "force-synchronize" = (if force_sync then Some (VBool true) else None) ∧
  rpc_args !! "synchronize" = (if force_sync || sync then Some (VBool true) else None) ∧
  (is_Some (rpc_args !! "force-synchronize") → is_Some (rpc_args !! "synchronize")).
Proof.
  cbv zeta.
  assert (commit_rpc_args E kvargs !! "force-synchronize" =
            (if truthy (dict_get kvargs "force_sync") then Some (VBool true) else None)) as H1.
  { commit_args_cases E kvargs; by simplify_map_eq. }
  assert (commit_rpc_args E kvargs !! "synchronize" =
            (if truthy (dict_get kvargs "force_sync") || truthy (dict_get kvargs "sync")
             then Some (VBool true) else None)) as H2.
  { commit_args_cases E kvargs; by simplify_map_eq. }
  split; [done|]. split; [done|].
  rewrite H1, H2. destruct (truthy (dict_get kvargs "force_sync")); [by eexists|].
  by intros [? ?].
Qed.

Lemma commit_sync_args_witness :
  let rpc_args := commit_rpc_args quiet_env {["force_sync" := VBool true]} in
  is_Some (rpc_args !! "force-synchronize") ∧ is_Some (rpc_args !! "synchronize").
Proof.
  assert (is_Some (commit_rpc_args quiet_env {["force_sync" := VBool true]}
                     !! "force-synchronize")) as Hforce.
  { exists (VBool true). vm_compute. reflexivity. }
  split; [exact Hforce|].
  exact (proj2 (proj2 (commit_sync_args quiet_env {["force_sync" := VBool true]})) Hforce).
Defined.

(** X2.  The comment travels as [log] and the timeout as [dev_timeout],
    each with the value given and only when it is truthy; [full] is a
    flag; and no key of [kvargs] reaches the request under any other name. *)
Theorem commit_passes_options (E : Env) (kvargs : gmap string value) :
  let rpc_args := commit_rpc_args E kvargs in
  rpc_args !! "log" =
    (if truthy (dict_get kvargs "comment") then Some (dict_get kvargs "comment") else None) ∧
  rpc_args !! "dev_timeout" =
    (if truthy (dict_get kvargs "timeout") then Some (dict_get kvargs "timeout") else None) ∧
  rpc_args !! "full" =
    (if truthy (dict_get kvargs "full") then Some (VBool true) else None) ∧
  (∀ k, k ∉ commit_request_keys → rpc_args !! k = None).
Proof.
  cbv zeta. split; [|split; [|split]].
  - commit_args_cases E kvargs; by simplify_map_eq.
  - commit_args_cases E kvargs; by simplify_map_eq.
  - commit_args_cases E kvargs; by simplify_map_eq.
  - intros k Hk. unfold commit_request_keys in Hk.
    assert (k ≠ "log" ∧ k ≠ "confirmed" ∧ k ≠ "confirm-timeout" ∧ k ≠ "dev_timeout" ∧
            k ≠ "synchronize" ∧ k ≠ "force-synchronize" ∧ k ≠ "full")
      as (? & ? & ? & ? & ? & ? & ?) by (set_unfold in Hk; naive_solver).
    commit_args_cases E kvargs; by simplify_map_eq.
Qed.

Lemma commit_passes_options_witness :
  let kvargs : gmap string value :=
    {["comment" := VStr "maintenance"; "check" := VBool true]} in
  ("check" ∉ commit_request_keys) ∧
  commit_rpc_args quiet_env kvargs !! "check" = None.
Proof.
  assert ("check" ∉ commit_request_keys) as Hk.
  { apply (bool_decide_unpack _). vm_compute. exact I. }
  split; [exact Hk|].
  exact (proj2 (proj2 (proj2 (commit_passes_options quiet_env
           {["comment" := VStr "maintenance"; "check" := VBool true]}))) "check" Hk).
Defined.

(** X3.  When the device accepts the commit, the result is the reply itself
    if [detail] was asked for, in which case the request carries the
    [detail] element as its positional argument, and [True] otherwise. *)
Theorem commit_success_result (E : Env) (kvargs : gmap string value) (rsp : value) :
  rpc_exec E (commit_op_call E (OpCommit kvargs)) = Ok rsp →
  run (commit E kvargs) =
    (Ok (if truthy (dict_get kvargs "detail") then rsp else VBool true),
     [Rpc "commit_configuration"
        (if truthy (dict_get kvargs "detail") then [VDict {["detail" := VStr "detail"]}] else [])
        (commit_rpc_args E kvargs)]).
Proof.
  simpl. intros Hexec. unfold commit. rewrite run_try_catch_call, Hexec.
  unfold commit_rpc_varg. by destruct (truthy (dict_get kvargs "detail")).
Qed.

Lemma commit_success_result_witness :
  run (commit quiet_env {["detail" := VBool true]}) =
    (Ok (VElem ok_reply),
     [Rpc "commit_configuration" [VDict {["detail" := VStr "detail"]}] ∅]).
Proof.
  exact (commit_success_result quiet_env {["detail" := VBool true]} (VElem ok_reply) eq_refl).
Defined.

(** X6.  For a valid id, [diff] returns the text of the reply's
    [configuration-output] element, except that a text of one newline, or
    no text, gives [None]; a reply without that element makes the
    attribute access on [None] fail. *)
Theorem diff_result (E : Env) (rb_id : Z) (rsp : xml) :
  0 ≤ rb_id ≤ 49 →
  rpc_exec E (diff_call rb_id) = Ok (VElem rsp) →
  fst (run (diff E rb_id)) =
    match xml_find "configuration-output" rsp with
    | None => Raise (no_attribute "NoneType" "text")
    | Some out =>
        Ok (match xml_text out with
            | Some text => if String.eqb text nl then VNone else VStr text
            | None => VNone
            end)
    end.
Proof.
  intros Hb Hexec. unfold diff.
  replace ((rb_id <? 0) || (rb_id >? 49)) with false by lia.
  rewrite run_bind_call. simpl py_str. fold (diff_call rb_id). rewrite Hexec.
  unfold bind, lift, ret. simpl.
  destruct (xml_find "configuration-output" rsp) as [out|]; [|done]. simpl.
  by destruct (xml_text out).
Qed.

Lemma diff_result_witness :
  let reply text := Element "rpc-reply" None [Element "configuration-output" (Some text) []] in
  fst (run (diff (env_of (fun _ => Ok (VElem (reply nl)))) 0)) = Ok VNone ∧
  fst (run (diff (env_of (fun _ => Ok (VElem (reply "+ host-name foo;")))) 0)) =
    Ok (VStr "+ host-name foo;").
Proof.
  split.
  - exact (diff_result (env_of (fun _ => Ok (VElem
             (Element "rpc-reply" None [Element "configuration-output" (Some nl) []])))) 0
             _ ltac:(lia) eq_refl).
  - exact (diff_result (env_of (fun _ => Ok (VElem
             (Element "rpc-reply" None
                [Element "configuration-output" (Some "+ host-name foo;") []])))) 0
             _ ltac:(lia) eq_refl).
Defined.

(** X7.  [diff] and [rollback] do not intercept a failure of the remote
    call: the exception the device raises is the one the caller gets; a
    rollback the device accepts returns [True] whatever the reply. *)
Theorem diff_rollback_propagate (E : Env) (rb_id : Z) (e : exn) :
  0 ≤ rb_id ≤ 49 →
  (rpc_exec E (diff_call rb_id) = Raise e →
     run (diff E rb_id) = (Raise e, [diff_call rb_id])) ∧
  (rpc_exec E (rollback_call rb_id) = Raise e →
     run (rollback E rb_id) = (Raise e, [rollback_call rb_id])) ∧
  (∀ rsp, rpc_exec E (rollback_call rb_id) = Ok rsp →
     run (rollback E rb_id) = (Ok (VBool true), [rollback_call rb_id])).
Proof.
  intros Hb. split; [|split].
  - intros Hexec. unfold diff.
    replace ((rb_id <? 0) || (rb_id >? 49)) with false by lia.
    rewrite run_bind_call. simpl py_str. fold (diff_call rb_id). by rewrite Hexec.
  - intros Hexec. by rewrite rollback_run, Hexec.
  - intros rsp Hexec. by rewrite rollback_run, Hexec.
Qed.

Lemma diff_rollback_propagate_witness :
  let e := Foreign "SessionCloseError" None in
  run (diff (failing_env e) 7) = (Raise e, [diff_call 7]) ∧
  run (rollback (failing_env e) 7) = (Raise e, [rollback_call 7]).
Proof.
  pose proof (diff_rollback_propagate (failing_env (Foreign "SessionCloseError" None)) 7
                (Foreign "SessionCloseError" None) ltac:(lia)) as (Hd & Hr & _).
  split; [exact (Hd eq_refl)|exact (Hr eq_refl)].
Defined.

(** X8.  Every outcome of [lock] and [unlock]: [True] on success; a
    structured protocol error of any class becomes LockError or UnlockError
    carrying its response and nothing else; an exception with an [xml]
    attribute becomes that error around the cleaned document; an exception
    outside the Exception hierarchy is not caught. *)
Theorem lock_unlock_outcomes (E : Env) :
  let lock_call := Rpc "lock_configuration" [] ∅ in
  let unlock_call := Rpc "unlock_configuration" [] ∅ in
  run (lock E) =
    (match rpc_exec E lock_call with
     | Ok _ => Ok (VBool true)
     | Raise (JunosExc _ _ rsp _) => Raise (JunosExc LockError VNone rsp VNone)
     | Raise (Foreign _ (Some doc)) =>
         match JXML_remove_namespaces E doc with
         | Ok clean => Raise (JunosExc LockError VNone clean VNone)
         | Raise e => Raise e
         end
     | Raise (NotException name) => Raise (NotException name)
     | Raise e => Raise (no_attribute (class_name e) "xml")
     end, [lock_call]) ∧
  run (unlock E) =
    (match rpc_exec E unlock_call with
     | Ok _ => Ok (VBool true)
     | Raise (JunosExc _ _ rsp _) => Raise (JunosExc UnlockError VNone rsp VNone)
     | Raise (Foreign _ (Some doc)) =>
         match JXML_remove_namespaces E doc with
         | Ok clean => Raise (JunosExc UnlockError VNone clean VNone)
         | Raise e => Raise e
         end
     | Raise (NotException name) => Raise (NotException name)
     | Raise e => Raise (no_attribute (class_name e) "xml")
     end, [unlock_call]).
Proof.
  cbv zeta. unfold lock, unlock, lock_like. rewrite !run_try_catch_call.
  split.
  - destruct (rpc_exec E _) as [v|[c cmd rsp errs|n m|n [doc|]|n]]; try done.
    unfold bind, lift. simpl. by destruct (JXML_remove_namespaces E doc).
  - destruct (rpc_exec E _) as [v|[c cmd rsp errs|n m|n [doc|]|n]]; try done.
    unfold bind, lift. simpl. by destruct (JXML_remove_namespaces E doc).
Qed.

(** X9.  [rescue('save')] and [rescue('delete')] return [True] when the call
    succeeds and, unlike get and reload, let a failure of the call through. *)
Theorem rescue_save_delete (E : Env) (format : value) :
  let save_call := Rpc "request_save_rescue_configuration" [] ∅ in
  let delete_call := Rpc "request_delete_rescue_configuration" [] ∅ in
  run (rescue E "save" format) =
    (match rpc_exec E save_call with Ok _ => Ok (VBool true) | Raise e => Raise e end,
     [save_call]) ∧
  run (rescue E "delete" format) =
    (match rpc_exec E delete_call with Ok _ => Ok (VBool true) | Raise e => Raise e end,
     [delete_call]).
Proof.
  cbv zeta. split.
  - change (rescue E "save" format) with (_rescue_save E).
    unfold _rescue_save. rewrite run_bind_call. by destruct (rpc_exec E _).
  - change (rescue E "delete" format) with (_rescue_delete E).
    unfold _rescue_delete. rewrite run_bind_call. by destruct (rpc_exec E _).
Qed.

(** X10.  An action other than get, save, delete and reload raises a
    ValueError naming it, and no remote call is made. *)
Theorem rescue_unsupported_action (E : Env) (action : string) (format : value) :
  action ∉ ["get"; "save"; "delete"; "reload"]%string →
  run (rescue E action format) =
    (Raise (Builtin "ValueError" ("unsupported action: " +:+ action)), []).
Proof.
  rewrite !not_elem_of_cons. intros (Hget & Hsave & Hdelete & Hreload & _).
  unfold rescue.
  destruct (String.eqb_spec action "get"); [done|].
  destruct (String.eqb_spec action "save"); [done|].
  destruct (String.eqb_spec action "delete"); [done|].
  by destruct (String.eqb_spec action "reload").
Qed.

Lemma rescue_unsupported_action_witness :
  run (rescue quiet_env "bogus" (VStr "text")) =
    (Raise (Builtin "ValueError" "unsupported action: bogus"), []).
Proof.
  apply (rescue_unsupported_action quiet_env "bogus" (VStr "text")).
  rewrite !not_elem_of_cons. repeat split; try discriminate. apply not_elem_of_nil.
Defined.


(** load: either a local failure, or exactly one transmission *)
Lemma sent_with_raise (E : Env) (kvargs : gmap string value) (e : exn) :
  sent_with E kvargs (Raise e, []).
Proof. left. by eexists. Qed.

Lemma load_from_text_outcome (E : Env) (ow path : value) (text : string)
    (kv x : gmap string value) :
  (∃ e, load_from_text E ow path text kv x [] = (Raise e, [])) ∨
  ∃ contents kv' x',
    _lset_fromfile ow path kv x = Ok (kv', x') ∧
    load_from_text E ow path text kv x [] = try_load E contents x' [].
Proof.
  unfold load_from_text, bind, lift.
  destruct (_lset_fromfile ow path kv x) as [[kv' x']|e]; [|left; by eexists].
  destruct (dict_item x' "format") as [fmt|e]; [|left; by eexists].
  destruct (eq_str fmt "xml").
  - destruct (parse_xml E text) as [doc|e]; [|left; by eexists].
    right. by exists doc, kv', x'.
  - right. by exists (VStr text), kv', x'.
Qed.

Lemma load_local_or_sent (E : Env) (vargs : list value) (kvargs : gmap string value) :
  sent_with E kvargs (run (load E vargs kvargs)).
Proof.
  unfold run, load.
  set (ow := dict_get_default kvargs "overwrite" (VBool false)).
  set (x0 := load_xattrs_init kvargs).
  destruct (kvargs !! "format") as [f|] eqn:Hf.
  - rewrite (dict_has_Some kvargs "format" f) by done.
    unfold bind at 1, lift at 1.
    destruct (_lset_format ow kvargs x0) as [[kv' x']|e] eqn:Hset;
      [|apply sent_with_raise].
    pose proof (lset_format_has_format _ _ _ _ _ Hset) as Hhas.
    assert (∀ contents, sent_with E kvargs (try_load E contents x' [])) as Hsent.
    { intros contents. right. exists contents, x'. split; [done|].
      right. by exists kvargs, f, kv'. }
    assert (∀ path text, sent_with E kvargs (load_from_text E ow path text kv' x' []))
      as Hfile.
    { intros path text.
      destruct (load_from_text_outcome E ow path text kv' x')
        as [[e ->]|(contents & kv2 & x2 & Hff & ->)]; [apply sent_with_raise|].
      unfold _lset_fromfile in Hff. rewrite Hhas in Hff. injection Hff as <- <-.
      apply Hsent. }
    destruct vargs as [|v rest].
    + destruct (kv' !! "path") as [p|].
      { unfold bind at 1, lift at 1.
        destruct (open_read E p); [apply Hfile|apply sent_with_raise]. }
      destruct (kv' !! "template_path") as [p|].
      { unfold bind at 1, lift at 1.
        destruct (dev_Template E p) as [t|]; [|apply sent_with_raise].
        unfold bind at 1, lift at 1.
        destruct (render E t _); [apply Hfile|apply sent_with_raise]. }
      destruct (kv' !! "template") as [t|]; [|apply sent_with_raise].
      unfold bind at 1, lift at 1.
      destruct (template_filename t) as [p|]; [|apply sent_with_raise].
      unfold bind at 1, lift at 1.
      destruct (render E t _); [apply Hfile|apply sent_with_raise].
    + destruct v as [| | |text| | |]; try apply Hsent.
      rewrite Hhas. cbn [negb]. unfold bind at 1, ret at 1.
      unfold bind at 1, lift at 1.
      destruct (dict_item kv' "format") as [fmt|]; [|apply sent_with_raise].
      unfold bind at 1.
      destruct (eq_str fmt "xml").
      * unfold lift. destruct (parse_xml E text); [apply Hsent|apply sent_with_raise].
      * unfold ret. apply Hsent.
  - rewrite (dict_has_None kvargs "format") by done.
    unfold bind at 1, ret at 1.
    assert (∀ contents, sent_with E kvargs (try_load E contents x0 [])) as Hsent0.
    { intros contents. right. exists contents, x0. split; [done|by left]. }
    assert (∀ path text, sent_with E kvargs (load_from_text E ow path text kvargs x0 []))
      as Hfile.
    { intros path text.
      destruct (load_from_text_outcome E ow path text kvargs x0)
        as [[e ->]|(contents & kv2 & x2 & Hff & ->)]; [apply sent_with_raise|].
      unfold _lset_fromfile in Hff. rewrite (dict_has_None kvargs "format") in Hff by done.
      cbn [negb] in Hff. destruct (_lformat_byext path) as [ext|]; [|done].
      right. exists contents, x2. split; [done|]. right.
      exists (<["format" := VStr ext]> kvargs), (VStr ext), kv2.
      split; [apply lookup_insert_eq|done]. }
    destruct vargs as [|v rest].
    + destruct (kvargs !! "path") as [p|].
      { unfold bind at 1, lift at 1.
        destruct (open_read E p); [apply Hfile|apply sent_with_raise]. }
      destruct (kvargs !! "template_path") as [p|].
      { unfold bind at 1, lift at 1.
        destruct (dev_Template E p) as [t|]; [|apply sent_with_raise].
        unfold bind at 1, lift at 1.
        destruct (render E t _); [apply Hfile|apply sent_with_raise]. }
      destruct (kvargs !! "template") as [t|]; [|apply sent_with_raise].
      unfold bind at 1, lift at 1.
      destruct (template_filename t) as [p|]; [|apply sent_with_raise].
      unfold bind at 1, lift at 1.
      destruct (render E t _); [apply Hfile|apply sent_with_raise].
    + destruct v as [| | |text| | |]; try apply Hsent0.
      rewrite (dict_has_None kvargs "format") by done. cbn [negb].
      rewrite lset_from_rexp_shape.
      destruct (content_shape text) as [f|];
        [|rewrite (dict_has_None kvargs "format") by done; apply sent_with_raise].
      rewrite dict_has_insert.
      unfold bind at 1, lift at 1.
      destruct (_lset_format _ _ _) as [[kv' x']|e] eqn:Hset; [|apply sent_with_raise].
      unfold bind at 1, lift at 1.
      destruct (dict_item kv' "format") as [fmt|]; [|apply sent_with_raise].
      assert (∀ contents, sent_with E kvargs (try_load E contents x' [])) as Hsent.
      { intros contents. right. exists contents, x'. split; [done|]. right.
        exists (<["format" := VStr f]> kvargs), (VStr f), kv'.
        split; [apply lookup_insert_eq|done]. }
      unfold bind at 1.
      destruct (eq_str fmt "xml").
      * unfold lift. destruct (parse_xml E text); [apply Hsent|apply sent_with_raise].
      * unfold ret. apply Hsent.
Qed.

Lemma sent_with_call (E : Env) (kvargs : gmap string value)
    (out : result value * list rpc_call) (c : rpc_call) :
  sent_with E kvargs out → c ∈ snd out →
  ∃ contents xattrs,
    c = Rpc "load_config" [contents] xattrs ∧
    out = run (try_load E contents xattrs) ∧
    (xattrs = load_xattrs_init kvargs ∨
     ∃ kv f kv', kv !! "format" = Some f ∧
       _lset_format (dict_get_default kvargs "overwrite" (VBool false)) kv
         (load_xattrs_init kvargs) = Ok (kv', xattrs)).
Proof.
  intros [[e ->]|(contents & xattrs & -> & Hx)] Hc; [by apply elem_of_nil in Hc|].
  rewrite try_load_trace in Hc. apply list_elem_of_singleton in Hc as ->.
  by exists contents, xattrs.
Qed.

Lemma load_xattrs_init_other (kvargs : gmap string value) (k : string) :
  k ≠ "format" → k ≠ "action" → load_xattrs_init kvargs !! k = None.
Proof.
  intros ? ?. unfold load_xattrs_init.
  destruct (eq_True _); [by simplify_map_eq|].
  destruct (is_True _); by simplify_map_eq.
Qed.

Lemma lset_format_other (ow : value) (kv x kv' x' : gmap string value) (k : string) :
  k ≠ "format" → k ≠ "action" →
  _lset_format ow kv x = Ok (kv', x') → x' !! k = x !! k.
Proof.
  intros ? ?. unfold _lset_format.
  destruct (dict_item kv "format") as [f|]; [|done].
  destruct (eq_str f "set").
  - destruct (eq_True ow); [done|]. intros [= <- <-]. by simplify_map_eq.
  - intros [= <- <-]. by simplify_map_eq.
Qed.

Lemma wire_format_not_set (f : value) : wire_format (Some f) ≠ VStr "set".
Proof.
  unfold wire_format. destruct (eq_str f "set") eqn:Hset; [done|].
  intros ->. done.
Qed.

Lemma spec_action_range (s o m : bool) :
  spec_action s o m ∈
    [None; Some (VStr "set"); Some (VStr "override"); Some (VStr "replace")].
Proof. destruct s, o, m; simpl; set_solver. Qed.

(** X11.  What a load puts on the wire: one positional argument and the
    attributes [format] and [action] only; the format is never [set], the
    action [set] comes with the format [text], and an action is one of
    [set], [override] and [replace]. *)
Theorem load_wire_invariants (E : Env) (vargs : list value) (kvargs : gmap string value)
    (c : rpc_call) :
  c ∈ snd (run (load E vargs kvargs)) →
  rpc_name c = "load_config" ∧
  length (rpc_args c) = 1%nat ∧
  (∃ fmt, rpc_kwargs c !! "format" = Some fmt ∧ fmt ≠ VStr "set" ∧
          (rpc_kwargs c !! "action" = Some (VStr "set") → fmt = VStr "text")) ∧
  rpc_kwargs c !! "action" ∈
    [None; Some (VStr "set"); Some (VStr "override"); Some (VStr "replace")] ∧
  (∀ k, k ≠ "format" → k ≠ "action" → rpc_kwargs c !! k = None).
Proof.
  intros Hc.
  destruct (sent_with_call E kvargs _ c (load_local_or_sent E vargs kvargs) Hc)
    as (contents & x & -> & _ & Hx).
  simpl. split; [done|]. split; [done|].
  destruct Hx as [->|(kv & f & kv' & Hf & Hset)].
  - rewrite load_xattrs_init_action, load_xattrs_init_format.
    split; [|split].
    + exists (VStr "xml"). split; [done|]. split; [done|].
      destruct (overwrite_requested kvargs), (merge_requested kvargs); done.
    + apply spec_action_range.
    + apply load_xattrs_init_other.
  - destruct (lset_format_xattrs _ _ _ _ _ Hf Hset) as [Hact Hfmt].
    rewrite Hact, Hfmt. split; [|split].
    + exists (wire_format (Some f)). split; [done|].
      split; [apply wire_format_not_set|].
      unfold wire_format.
      destruct (eq_str f "set"); [done|].
      destruct (overwrite_requested kvargs), (merge_requested kvargs); done.
    + apply spec_action_range.
    + intros k ? ?. rewrite (lset_format_other _ _ _ _ _ k) by done.
      by apply load_xattrs_init_other.
Qed.

Lemma load_wire_invariants_witness :
  let c := Rpc "load_config" [VStr "set system host-name foo"]
             {["action" := VStr "set"; "format" := VStr "text"]} in
  c ∈ snd (run (load quiet_env [VStr "set system host-name foo"] ∅)) ∧
  length (rpc_args c) = 1%nat.
Proof.
  assert (Rpc "load_config" [VStr "set system host-name foo"]
            {["action" := VStr "set"; "format" := VStr "text"]}
          ∈ snd (run (load quiet_env [VStr "set system host-name foo"] ∅))) as Hc.
  { vm_compute. apply list_elem_of_here. }
  split; [exact Hc|].
  exact (proj1 (proj2 (load_wire_invariants quiet_env
                         [VStr "set system host-name foo"] ∅ _ Hc))).
Defined.

(** X12.  Once a load has made its remote call, its outcome is that of the
    call: the reply is returned as it is, a structured protocol error
    becomes ConfigLoadError with the same command, response and
    sub-errors, any other exception is re-raised unmodified. *)
Theorem load_result_of_call (E : Env) (vargs : list value) (kvargs : gmap string value)
    (c : rpc_call) :
  c ∈ snd (run (load E vargs kvargs)) →
  fst (run (load E vargs kvargs)) =
    match rpc_exec E c with
    | Ok reply => Ok reply
    | Raise (JunosExc _ cmd rsp errs) => Raise (JunosExc ConfigLoadError cmd rsp errs)
    | Raise e => Raise e
    end.
Proof.
  intros Hc.
  destruct (sent_with_call E kvargs _ c (load_local_or_sent E vargs kvargs) Hc)
    as (contents & x & -> & -> & _).
  unfold try_load. rewrite run_try_catch_call.
  destruct (rpc_exec E _) as [v|[]]; done.
Qed.

Lemma load_result_of_call_witness :
  let e := JunosExc RpcError (VStr "load") (VElem ok_reply) (VStr "syntax error") in
  let c := Rpc "load_config" [VStr "set system host-name foo"]
             {["action" := VStr "set"; "format" := VStr "text"]} in
  c ∈ snd (run (load (failing_env e) [VStr "set system host-name foo"] ∅)) ∧
  fst (run (load (failing_env e) [VStr "set system host-name foo"] ∅)) =
    Raise (JunosExc ConfigLoadError (VStr "load") (VElem ok_reply) (VStr "syntax error")).
Proof.
  assert (Rpc "load_config" [VStr "set system host-name foo"]
            {["action" := VStr "set"; "format" := VStr "text"]}
          ∈ snd (run (load (failing_env (JunosExc RpcError (VStr "load") (VElem ok_reply)
                                           (VStr "syntax error")))
                        [VStr "set system host-name foo"] ∅))) as Hc.
  { vm_compute. apply list_elem_of_here. }
  split; [exact Hc|].
  exact (load_result_of_call _ _ _ _ Hc).
Defined.

Lemma commit_check_trace (E : Env) :
  snd (run (commit_check E)) = [commit_op_call E OpCommitCheck].
Proof.
  unfold commit_check. rewrite run_try_catch_call. simpl.
  destruct (rpc_exec E _) as [rsp|e]; [done|].
  destruct e as [c cmd rsp errs|name msg|name [x|]|name]; try done.
  unfold on_rpc_error, bind, lift.
  destruct (py_find rsp "ok") as [f|]; [|done]. by destruct (negb (is_None f)).
Qed.

Lemma lock_like_trace (E : Env) (name : string) (cls : junos_class) :
  snd (run (lock_like E name cls)) = [Rpc name [] ∅].
Proof.
  unfold lock_like. rewrite run_try_catch_call.
  destruct (rpc_exec E _) as [rsp|e]; [done|].
  destruct e as [c cmd rsp errs|n msg|n [x|]|n]; try done.
  unfold bind, lift. simpl. by destruct (JXML_remove_namespaces E x).
Qed.

(** X13.  No operation talks to the device more than once: [commit],
    [commit_check], [lock] and [unlock] make exactly one remote call, the
    others at most one. *)
Theorem at_most_one_remote_call (E : Env) :
  (∀ kvargs, length (snd (run (commit E kvargs))) = 1%nat) ∧
  length (snd (run (commit_check E))) = 1%nat ∧
  (∀ rb_id, (length (snd (run (diff E rb_id))) ≤ 1)%nat) ∧
  (∀ rb_id, (length (snd (run (rollback E rb_id))) ≤ 1)%nat) ∧
  length (snd (run (lock E))) = 1%nat ∧
  length (snd (run (unlock E))) = 1%nat ∧
  (∀ action format, (length (snd (run (rescue E action format))) ≤ 1)%nat) ∧
  (∀ vargs kvargs, (length (snd (run (load E vargs kvargs))) ≤ 1)%nat).
Proof.
  split_and!.
  - intros kvargs. by rewrite commit_trace.
  - by rewrite commit_check_trace.
  - intros rb_id. destruct (decide (0 ≤ rb_id ≤ 49)) as [Hb|Hb].
    + by rewrite diff_trace.
    + unfold diff. replace ((rb_id <? 0) || (rb_id >? 49)) with true by lia.
      simpl. lia.
  - intros rb_id. destruct (decide (0 ≤ rb_id ≤ 49)) as [Hb|Hb].
    + by rewrite rollback_run.
    + unfold rollback. replace ((rb_id <? 0) || (rb_id >? 49)) with true by lia.
      simpl. lia.
  - unfold lock. by rewrite lock_like_trace.
  - unfold unlock. by rewrite lock_like_trace.
  - intros action format. unfold rescue.
    destruct (String.eqb action "get").
    { unfold _rescue_get, run, try_catch, bind, call_rpc, lift, ret. simpl.
      destruct (rpc_exec E _) as [got|]; [|done].
      destruct (eq_str format "text"); [|done].
      by destruct (py_findtext2 got _ _). }
    destruct (String.eqb action "save").
    { unfold _rescue_save. rewrite run_bind_call. by destruct (rpc_exec E _). }
    destruct (String.eqb action "delete").
    { unfold _rescue_delete. rewrite run_bind_call. by destruct (rpc_exec E _). }
    destruct (String.eqb action "reload").
    { unfold _rescue_reload. rewrite run_try_catch_call. by destruct (rpc_exec E _). }
    simpl. lia.
  - intros vargs kvargs.
    destruct (load_local_or_sent E vargs kvargs) as [[e ->]|(contents & x & -> & _)].
    + simpl. lia.
    + by rewrite try_load_trace.
Qed.

(** X14.  A load given no content, no path and no template makes no remote
    call and raises the unhandled-request error, unless the options
    already conflict (set format with overwrite). *)
Theorem load_unhandled_request (E : Env) (kvargs : gmap string value) :
  kvargs !! "path" = None →
  kvargs !! "template_path" = None →
  kvargs !! "template" = None →
  run (load E [] kvargs) =
    (Raise (if is_set_style (kvargs !! "format") && overwrite_requested kvargs
            then conflicting_args else unhandled_load_request), []).
Proof.
  intros Hp Htp Ht. unfold run, load, is_set_style, overwrite_requested.
  destruct (kvargs !! "format") as [f|] eqn:Hf.
  - rewrite (dict_has_Some kvargs "format" f) by done.
    unfold bind, lift, _lset_format, dict_item. rewrite Hf.
    destruct (eq_str f "set"); simpl.
    + destruct (eq_True _); [done|].
      by rewrite !lookup_insert_ne, Hp, Htp, Ht by done.
    + by rewrite Hp, Htp, Ht.
  - rewrite (dict_has_None kvargs "format") by done.
    unfold bind, ret. by rewrite Hp, Htp, Ht.
Qed.

Lemma load_unhandled_request_witness :
  run (load quiet_env [] {["merge" := VBool true]}) = (Raise unhandled_load_request, []).
Proof.
  exact (load_unhandled_request quiet_env {["merge" := VBool true]} eq_refl eq_refl eq_refl).
Defined.

(** A file source is a direct load of its text under the resolved format *)
Lemma lset_format_same_format (ow : value) (kv x kv' x' : gmap string value) :
  _lset_format ow kv x = Ok (kv', x') → kv' !! "format" = x' !! "format".
Proof.
  unfold _lset_format, dict_item.
  destruct (kv !! "format") as [f|] eqn:Hf; [|done].
  destruct (eq_str f "set").
  - destruct (eq_True ow); [done|]. intros [= <- <-]. by rewrite !lookup_insert_eq.
  - intros [= <- <-]. by rewrite lookup_insert_eq.
Qed.

Lemma lset_format_frame (ow : value) (kv x kv' x' : gmap string value) (k : string) :
  k ≠ "format" → _lset_format ow kv x = Ok (kv', x') → kv' !! k = kv !! k.
Proof.
  intros Hk. unfold _lset_format.
  destruct (dict_item kv "format") as [f|]; [|done].
  destruct (eq_str f "set").
  - destruct (eq_True ow); [done|]. intros [= <- <-]. by rewrite lookup_insert_ne.
  - by intros [= <- <-].
Qed.

Lemma load_direct_explicit (E : Env) (text : string) (rest : list value)
    (kvargs : gmap string value) (f : value) :
  kvargs !! "format" = Some f →
  run (load E (VStr text :: rest) kvargs) =
  send_text E text
    (_lset_format (dict_get_default kvargs "overwrite" (VBool false)) kvargs
       (load_xattrs_init kvargs)).
Proof.
  intros Hf. unfold run, load, send_text.
  rewrite (dict_has_Some kvargs "format" f) by done.
  unfold bind at 1, lift at 1.
  destruct (_lset_format _ kvargs _) as [[kv' x']|e] eqn:Hset; [|done].
  rewrite (lset_format_has_format _ _ _ _ _ Hset). cbn [negb].
  unfold bind at 1, ret at 1. unfold dict_item.
  by rewrite (lset_format_same_format _ _ _ _ _ Hset).
Qed.

Lemma load_path_explicit (E : Env) (path : value) (text : string)
    (kvargs : gmap string value) (f : value) :
  kvargs !! "format" = Some f →
  kvargs !! "path" = Some path →
  open_read E path = Ok text →
  run (load E [] kvargs) =
  send_text E text
    (_lset_format (dict_get_default kvargs "overwrite" (VBool false)) kvargs
       (load_xattrs_init kvargs)).
Proof.
  intros Hf Hp Hread. unfold run, load, send_text.
  rewrite (dict_has_Some kvargs "format" f) by done.
  unfold bind at 1, lift at 1.
  destruct (_lset_format _ kvargs _) as [[kv' x']|e] eqn:Hset; [|done].
  rewrite (lset_format_frame _ _ _ _ _ "path" ltac:(done) Hset), Hp.
  unfold bind at 1, lift at 1. rewrite Hread.
  unfold load_from_text, _lset_fromfile.
  rewrite (lset_format_has_format _ _ _ _ _ Hset). cbn [negb].
  by unfold bind at 1, lift at 1.
Qed.

Lemma load_path_by_extension (E : Env) (path : value) (text ext : string)
    (kvargs : gmap string value) :
  kvargs !! "format" = None →
  kvargs !! "path" = Some path →
  open_read E path = Ok text →
  _lformat_byext path = Ok ext →
  run (load E [] kvargs) =
  send_text E text
    (_lset_format (dict_get_default kvargs "overwrite" (VBool false))
       (<["format" := VStr ext]> kvargs) (load_xattrs_init kvargs)).
Proof.
  intros Hf Hp Hread Hext. unfold run, load, send_text.
  rewrite (dict_has_None kvargs "format") by done.
  unfold bind at 1, ret at 1. rewrite Hp.
  unfold bind at 1, lift at 1. rewrite Hread.
  unfold load_from_text, _lset_fromfile.
  rewrite (dict_has_None kvargs "format"), Hext by done. cbn [negb].
  unfold bind at 1, lift at 1.
  by destruct (_lset_format _ _ _) as [[kv' x']|e].
Qed.

(** X15.  Loading a readable file is loading its text directly under the
    resolved format, be it given explicitly or taken from the extension. *)
Theorem load_file_as_direct (E : Env) (kvargs : gmap string value) (path f : value)
    (text : string) :
  kvargs !! "path" = Some path →
  open_read E path = Ok text →
  resolved_format [] kvargs = Some f →
  run (load E [] kvargs) = run (load E [VStr text] (<["format" := f]> kvargs)).
Proof.
  intros Hp Hread Hres. unfold resolved_format, source_path in Hres. rewrite Hp in Hres.
  rewrite (load_direct_explicit E text [] _ f) by apply lookup_insert_eq.
  rewrite load_xattrs_init_insert_format.
  unfold dict_get_default. rewrite (lookup_insert_ne kvargs "format" "overwrite") by done.
  fold (dict_get_default kvargs "overwrite" (VBool false)).
  destruct (kvargs !! "format") as [f0|] eqn:Hf.
  - injection Hres as <-. rewrite (insert_id kvargs "format" f0) by done.
    by apply load_path_explicit with path f0.
  - destruct (_lformat_byext path) as [ext|] eqn:Hext; [|done]. injection Hres as <-.
    by apply load_path_by_extension with path.
Qed.

Lemma load_file_as_direct_witness :
  run (load quiet_env [] {["path" := VStr "/etc/junos/base.set"]}) =
  run (load quiet_env [VStr "set system host-name foo"]
         (<["format" := VStr "set"]> {["path" := VStr "/etc/junos/base.set"]})).
Proof.
  exact (load_file_as_direct quiet_env {["path" := VStr "/etc/junos/base.set"]}
           (VStr "/etc/junos/base.set") (VStr "set") "set system host-name foo"
           eq_refl eq_refl eq_refl).
Defined.

Lemma load_direct_detected (E : Env) (text : string) (rest : list value)
    (kvargs : gmap string value) :
  kvargs !! "format" = None →
  run (load E (VStr text :: rest) kvargs) =
  match content_shape text with
  | Some f =>
      send_text E text
        (_lset_format (dict_get_default kvargs "overwrite" (VBool false))
           (<["format" := VStr f]> kvargs) (load_xattrs_init kvargs))
  | None => (Raise cannot_resolve_format, [])
  end.
Proof.
  intros Hf. unfold run, load, send_text.
  rewrite (dict_has_None kvargs "format") by done.
  unfold bind at 1, ret at 1.
  rewrite (dict_has_None kvargs "format") by done. cbn [negb].
  rewrite lset_from_rexp_shape.
  destruct (content_shape text) as [f|];
    [|by rewrite (dict_has_None kvargs "format") by done].
  rewrite dict_has_insert.
  unfold bind at 1, lift at 1.
  destruct (_lset_format _ _ _) as [[kv' x']|e] eqn:Hset; [|done].
  unfold dict_item. by rewrite (lset_format_same_format _ _ _ _ _ Hset).
Qed.

Lemma load_direct_object (E : Env) (v : value) (rest : list value)
    (kvargs : gmap string value) :
  is_str v = false →
  run (load E (v :: rest) kvargs) =
  match kvargs !! "format" with
  | Some _ =>
      match _lset_format (dict_get_default kvargs "overwrite" (VBool false)) kvargs
              (load_xattrs_init kvargs) with
      | Ok (_, x') => run (try_load E v x')
      | Raise e => (Raise e, [])
      end
  | None => run (try_load E v (load_xattrs_init kvargs))
  end.
Proof.
  intros Hv. unfold run, load.
  destruct (kvargs !! "format") as [f|] eqn:Hf.
  - rewrite (dict_has_Some kvargs "format" f) by done.
    unfold bind at 1, lift at 1.
    destruct (_lset_format _ kvargs _) as [[kv' x']|e]; [|done].
    by destruct v.
  - rewrite (dict_has_None kvargs "format") by done.
    unfold bind at 1, ret at 1. by destruct v.
Qed.

Lemma lset_format_same_input (ow : value) (kv1 kv2 x : gmap string value) :
  kv1 !! "format" = kv2 !! "format" →
  match _lset_format ow kv1 x, _lset_format ow kv2 x with
  | Ok (_, x1), Ok (_, x2) => x1 = x2
  | Raise e1, Raise e2 => e1 = e2
  | _, _ => False
  end.
Proof.
  intros H. unfold _lset_format, dict_item. rewrite H.
  destruct (kv2 !! "format") as [f|]; [|done].
  destruct (eq_str f "set"); [|done]. by destruct (eq_True ow).
Qed.

Lemma send_text_same_input (E : Env) (text : string) (ow : value)
    (kv1 kv2 x : gmap string value) :
  kv1 !! "format" = kv2 !! "format" →
  send_text E text (_lset_format ow kv1 x) = send_text E text (_lset_format ow kv2 x).
Proof.
  intros H. pose proof (lset_format_same_input ow kv1 kv2 x H) as Hrel.
  destruct (_lset_format ow kv1 x) as [[? x1]|e1], (_lset_format ow kv2 x) as [[? x2]|e2];
    try done; by subst.
Qed.

(** X16.  Directly supplied content makes the file and template options,
    and any further positional argument, irrelevant: two such loads that
    agree on [format], [overwrite] and [merge] behave alike. *)
Theorem load_direct_ignores_other_sources (E : Env) (v : value) (rest1 rest2 : list value)
    (kv1 kv2 : gmap string value) :
  kv1 !! "format" = kv2 !! "format" →
  kv1 !! "overwrite" = kv2 !! "overwrite" →
  kv1 !! "merge" = kv2 !! "merge" →
  run (load E (v :: rest1) kv1) = run (load E (v :: rest2) kv2).
Proof.
  intros Hf How Hm.
  assert (load_xattrs_init kv1 = load_xattrs_init kv2) as Hinit.
  { unfold load_xattrs_init, dict_get_default, dict_get. by rewrite How, Hm. }
  assert (dict_get_default kv1 "overwrite" (VBool false) =
          dict_get_default kv2 "overwrite" (VBool false)) as How'.
  { unfold dict_get_default. by rewrite How. }
  destruct (is_str v) eqn:Hv.
  - destruct v as [| | |text| | |]; try done.
    destruct (kv2 !! "format") as [f|] eqn:Hf2.
    + rewrite (load_direct_explicit E text rest1 kv1 f), (load_direct_explicit E text rest2 kv2 f)
        by done.
      rewrite Hinit, How'. apply send_text_same_input. by rewrite Hf.
    + rewrite !load_direct_detected by done. rewrite Hinit, How'.
      destruct (content_shape text) as [f|]; [|done].
      apply send_text_same_input. by rewrite !lookup_insert_eq.
  - rewrite !load_direct_object by done. rewrite Hinit, How'.
    pose proof (lset_format_same_input (dict_get_default kv2 "overwrite" (VBool false))
                  kv1 kv2 (load_xattrs_init kv2) Hf) as Hrel.
    rewrite Hf. destruct (kv2 !! "format") as [f|]; [|done].
    destruct (_lset_format _ kv1 _) as [[? x1]|e1], (_lset_format _ kv2 _) as [[? x2]|e2];
      try done; by subst.
Qed.

Lemma load_direct_ignores_other_sources_witness :
  run (load quiet_env [VStr "set system host-name foo"; VStr "ignored"]
         {["path" := VStr "other.xml"; "template_path" := VStr "t.conf"]}) =
  run (load quiet_env [VStr "set system host-name foo"] ∅).
Proof.
  exact (load_direct_ignores_other_sources quiet_env (VStr "set system host-name foo")
           [VStr "ignored"] []
           {["path" := VStr "other.xml"; "template_path" := VStr "t.conf"]} ∅
           eq_refl eq_refl eq_refl).
Defined.

(** X17.  A directly supplied text whose format resolves to xml and which
    does not parse fails with the parser's exception before anything is
    sent. *)
Theorem load_parse_failure_is_local (E : Env) (text : string) (rest : list value)
    (kvargs : gmap string value) (e : exn) :
  resolved_format (VStr text :: rest) kvargs = Some (VStr "xml") →
  etree_XML E text = Raise e →
  run (load E (VStr text :: rest) kvargs) = (Raise e, []).
Proof.
  unfold resolved_format. intros Hres Hparse.
  assert (∀ kv x, kv !! "format" = Some (VStr "xml") →
            send_text E text (_lset_format (dict_get_default kvargs "overwrite" (VBool false))
                                kv x) = (Raise e, [])) as Hsend.
  { intros kv x Hkv. unfold _lset_format, dict_item. rewrite Hkv. simpl.
    unfold bind, lift, dict_item. rewrite lookup_insert_eq. simpl.
    unfold parse_xml. by rewrite Hparse. }
  destruct (kvargs !! "format") as [f|] eqn:Hf.
  - injection Hres as ->. rewrite (load_direct_explicit E text rest kvargs (VStr "xml")) by done.
    by apply Hsend.
  - rewrite load_direct_detected by done.
    destruct (content_shape text) as [f|]; [|done]. injection Hres as ->.
    apply Hsend, lookup_insert_eq.
Qed.

Lemma load_parse_failure_is_local_witness :
  let E := mkEnv (fun _ => Ok VNone) (fun _ => Ok "") (fun _ => Raise (Builtin "XMLSyntaxError" "no element found"))
             (fun _ => Ok VNone) (fun _ _ => Ok "") Ok Ok (fun _ => "") in
  run (load E [VStr "<configuration>"] ∅) =
    (Raise (Builtin "XMLSyntaxError" "no element found"), []).
Proof.
  exact (load_parse_failure_is_local
           (mkEnv (fun _ => Ok VNone) (fun _ => Ok "")
              (fun _ => Raise (Builtin "XMLSyntaxError" "no element found"))
              (fun _ => Ok VNone) (fun _ _ => Ok "") Ok Ok (fun _ => ""))
           "<configuration>" [] ∅ _ eq_refl eq_refl).
Defined.

(** X18.  With no explicit format, a readable file whose extension is not
    in the table makes the load raise a ValueError naming the extension,
    with no remote call made. *)
Theorem load_unknown_extension (E : Env) (kvargs : gmap string value) (path text : string) :
  kvargs !! "format" = None →
  kvargs !! "path" = Some (VStr path) →
  file_read E path = Ok text →
  snd (splitext path) ∉ [".xml"; ".conf"; ".text"; ".txt"; ".set"]%string →
  run (load E [] kvargs) =
    (Raise (Builtin "ValueError"
              ("Unknown file contents from extension: " +:+ snd (splitext path))), []).
Proof.
  intros Hf Hp Hread Hext. rewrite !not_elem_of_cons in Hext.
  destruct Hext as (Hxml & Hconf & Htext & Htxt & Hset & _).
  unfold run, load.
  rewrite (dict_has_None kvargs "format") by done.
  unfold bind at 1, ret at 1. rewrite Hp.
  unfold bind at 1, lift at 1. simpl. rewrite Hread.
  unfold load_from_text, _lset_fromfile.
  rewrite (dict_has_None kvargs "format") by done. cbn [negb].
  unfold _lformat_byext. simpl.
  destruct (splitext path) as [root ext]. simpl in *.
  destruct (String.eqb_spec ext ".xml"); [done|].
  destruct (String.eqb_spec ext ".conf"); [done|].
  destruct (String.eqb_spec ext ".text"); [done|].
  destruct (String.eqb_spec ext ".txt"); [done|].
  by destruct (String.eqb_spec ext ".set").
Qed.

Lemma load_unknown_extension_witness :
  run (load quiet_env [] {["path" := VStr "base.foo"]}) =
    (Raise (Builtin "ValueError" "Unknown file contents from extension: .foo"), []).
Proof.
  apply (load_unknown_extension quiet_env {["path" := VStr "base.foo"]} "base.foo"
           "set system host-name foo"); try reflexivity.
  rewrite !not_elem_of_cons. repeat split; try discriminate. apply not_elem_of_nil.
Defined.

(** Blank text has no shape *)
Lemma all_space_elem (w : list ascii) (c : ascii) :
  all_space w → c ∈ w → is_space c = true.
Proof. unfold all_space. rewrite Forall_forall. auto. Qed.

Lemma blank_has_no_shape (text : string) :
  all_space (list_ascii_of_string text) → content_shape text = None.
Proof.
  intros Hblank. unfold content_shape.
  destruct (looks_like_xml text) eqn:Hxml.
  { apply looks_like_xml_spec in Hxml as (pre & ws & body & post & Heq & _).
    rewrite Heq in Hblank.
    assert (is_space "<" = true) as H; [|done].
    apply (all_space_elem _ _ Hblank).
    apply elem_of_app. right. apply elem_of_app. right. apply list_elem_of_here. }
  destruct (looks_like_set text) eqn:Hset.
  { apply looks_like_set_spec in Hset as (ws & kw & c & rest & Heq & _ & Hkw & _).
    rewrite Heq in Hblank.
    assert (∃ k, k ∈ list_ascii_of_string kw ∧ is_space k = false) as (k & Hk & Hns).
    { rewrite !elem_of_cons in Hkw.
      destruct Hkw as [->|[->|[->|[->|?%elem_of_nil]]]]; [..|done];
        eexists; (split; [apply list_elem_of_here|done]). }
    assert (is_space k = true) as H; [|congruence].
    apply (all_space_elem _ _ Hblank).
    apply elem_of_app. right. apply elem_of_app. by left. }
  destruct (looks_like_curly text) eqn:Hcurly; [|done].
  apply looks_like_curly_spec in Hcurly as [_ (before & ws & Heq & _)].
  rewrite Heq in Hblank.
  assert (is_space "}" = true) as H; [|done].
  apply (all_space_elem _ _ Hblank).
  apply elem_of_app. right. apply list_elem_of_here.
Qed.

(** X19.  Text made of white space only, the empty text included, has no
    resolvable shape: without an explicit format the load raises the
    cannot-resolve error and makes no remote call. *)
Theorem load_blank_text_unresolved (E : Env) (text : string) (rest : list value)
    (kvargs : gmap string value) :
  all_space (list_ascii_of_string text) →
  kvargs !! "format" = None →
  run (load E (VStr text :: rest) kvargs) = (Raise cannot_resolve_format, []).
Proof.
  intros Hblank Hf. rewrite load_direct_detected by done.
  by rewrite blank_has_no_shape.
Qed.

Lemma load_blank_text_unresolved_witness :
  run (load quiet_env [VStr ""] ∅) = (Raise cannot_resolve_format, []).
Proof.
  apply (load_blank_text_unresolved quiet_env "" [] ∅); [constructor|reflexivity].
Defined.

(** Witnesses for the propagation lemmas of commit *)
Lemma commit_unrecognized_propagates_witness :
  let e := Builtin "IOError" "connection reset" in
  run (commit (failing_env e) ∅) = (Raise e, [commit_op_call (failing_env e) (OpCommit ∅)]).
Proof.
  exact (commit_unrecognized_propagates (failing_env (Builtin "IOError" "connection reset")) ∅
           (Builtin "IOError" "connection reset") eq_refl eq_refl eq_refl).
Defined.

Lemma commit_timeout_propagates_witness :
  let e := JunosExc RpcTimeoutError (VStr "commit") VNone VNone in
  fst (run (commit (failing_env e) ∅)) = Raise e.
Proof.
  exact (commit_timeout_propagates
           (failing_env (JunosExc RpcTimeoutError (VStr "commit") VNone VNone)) ∅
           (VStr "commit") VNone VNone eq_refl).
Defined.

(** ** File extensions *)

Lemma chars_app (a b : string) : list_ascii_of_string (a +:+ b) = list_ascii_of_string a ++ list_ascii_of_string b.
Proof. induction a as [|c a IH]; simpl; [done|]. by rewrite IH. Qed.

Lemma chars_length (s : string) : length (list_ascii_of_string s) = String.length s.
Proof. induction s as [|c s IH]; simpl; [done|]. by rewrite IH. Qed.

Lemma chars_inj (a b : string) : list_ascii_of_string a = list_ascii_of_string b → a = b.
Proof.
  intros H. rewrite <- (string_of_list_ascii_of_string a), <- (string_of_list_ascii_of_string b).
  by rewrite H.
Qed.

Lemma chars_substring (s : string) : ∀ n m,
  list_ascii_of_string (String.substring n m s) = take m (drop n (list_ascii_of_string s)).
Proof.
  induction s as [|c s IH]; intros n m; simpl.
  - destruct n, m; simpl; by rewrite ?take_nil.
  - destruct n as [|n]; simpl.
    + destruct m as [|m]; simpl; [done|]. rewrite IH. by rewrite drop_0.
    + apply IH.
Qed.

Lemma rfind_from_app (c : ascii) (a b : string) : ∀ i last,
  rfind_from c (a +:+ b) i last =
  rfind_from c b (i + Z.of_nat (String.length a)) (rfind_from c a i last).
Proof.
  induction a as [|x a IH]; intros i last; simpl.
  - by rewrite Z.add_0_r.
  - rewrite IH. f_equal. lia.
Qed.

Lemma rfind_from_absent (c : ascii) (s : string) : ∀ i last,
  c ∉ list_ascii_of_string s → rfind_from c s i last = last.
Proof.
  induction s as [|x s IH]; intros i last Hc; simpl; [done|].
  simpl in Hc. apply not_elem_of_cons in Hc as [Hx Hs].
  rewrite IH by done. destruct (Ascii.eqb_spec x c); [by subst|done].
Qed.

Lemma rfind_from_bounds (c : ascii) (s : string) : ∀ i last,
  last < i →
  last ≤ rfind_from c s i last < i + Z.of_nat (String.length s).
Proof.
  induction s as [|x s IH]; intros i last Hlt; simpl; [lia|].
  destruct (Ascii.eqb x c).
  - specialize (IH (i + 1) i ltac:(lia)). lia.
  - specialize (IH (i + 1) last ltac:(lia)). lia.
Qed.

(** The extension of [dir/stem.ext] *)
Lemma splitext_stem_ext (dir stem ext : string) (c : ascii) :
  "/"%char ∉ list_ascii_of_string stem →
  c ∈ list_ascii_of_string stem → c ≠ "."%char →
  "."%char ∉ list_ascii_of_string ext → "/"%char ∉ list_ascii_of_string ext →
  splitext (dir +:+ stem +:+ "." +:+ ext) = (dir +:+ stem, "." +:+ ext).
Proof.
  intros Hstem Hc Hcdot Hext Hext'.
  unfold splitext, rfind.
  pose proof (rfind_from_bounds "/" dir 0 (-1) ltac:(lia)) as Hsep.
  set (sep := rfind_from "/" dir 0 (-1)) in *.
  assert (rfind_from "/" (dir +:+ stem +:+ "." +:+ ext) 0 (-1) = sep) as ->.
  { rewrite !rfind_from_app. simpl.
    rewrite (rfind_from_absent "/" ext) by done.
    by rewrite (rfind_from_absent "/" stem). }
  assert (rfind_from "." (dir +:+ stem +:+ "." +:+ ext) 0 (-1) =
          Z.of_nat (String.length dir + String.length stem)) as ->.
  { rewrite !rfind_from_app. simpl.
    rewrite (rfind_from_absent "." ext) by done. lia. }
  assert (list_ascii_of_string (dir +:+ stem +:+ "." +:+ ext) =
          list_ascii_of_string dir ++ list_ascii_of_string stem ++ "."%char :: list_ascii_of_string ext) as Hp.
  { by rewrite !chars_app. }
  clearbody sep.
  assert (sep < Z.of_nat (String.length dir + String.length stem)) as Hlt by lia.
  rewrite (proj2 (Z.gtb_lt _ _) Hlt).
  cbn [andb].
  assert (existsb (λ c0, negb (Ascii.eqb c0 "."))
            (list_ascii_of_string (slice (dir +:+ stem +:+ "." +:+ ext) (sep + 1)
                      (Z.of_nat (String.length dir + String.length stem)))) = true) as ->.
  { apply existsb_exists. exists c. split.
    - apply list_elem_of_In. unfold slice. rewrite chars_substring, Hp.
      apply list_elem_of_lookup in Hc as [i Hi].
      pose proof (lookup_lt_Some _ _ _ Hi) as Hi_lt. rewrite chars_length in Hi_lt.
      apply list_elem_of_lookup.
      exists (String.length dir - Z.to_nat (sep + 1) + i)%nat.
      rewrite lookup_take_lt by lia. rewrite lookup_drop.
      rewrite lookup_app_r by (rewrite chars_length; lia).
      rewrite lookup_app_l by (rewrite !chars_length; lia).
      rewrite <- Hi. f_equal. rewrite chars_length. lia.
    - by apply negb_true_iff, Ascii.eqb_neq. }
  assert (String.length (dir +:+ stem +:+ "." +:+ ext) =
          (String.length dir + String.length stem + 1 + String.length ext)%nat) as Hlen.
  { rewrite <- chars_length, Hp, !length_app. simpl. rewrite !chars_length. lia. }
  f_equal; apply chars_inj; unfold slice; rewrite chars_substring, Hp.
  - rewrite drop_0, chars_app, app_assoc.
    apply take_app_length'. rewrite length_app, !chars_length. lia.
  - rewrite app_assoc, drop_app_length' by (rewrite length_app, !chars_length; lia).
    apply take_ge. rewrite chars_length, Hlen.
    change (String.length ("." +:+ ext)) with (S (String.length ext)). lia.
Qed.

(** X20.  A path [dir/stem.ext], where the stem has a character other than
    a dot and no slash and the extension has neither dot nor slash,
    resolves by [ext] alone: xml, then conf, text and txt as text, then
    set, anything else being an error naming the extension. *)
Theorem lformat_byext_by_suffix (dir stem ext : string) (c : ascii) :
  "/"%char ∉ list_ascii_of_string stem →
  c ∈ list_ascii_of_string stem → c ≠ "."%char →
  "."%char ∉ list_ascii_of_string ext → "/"%char ∉ list_ascii_of_string ext →
  _lformat_byext (VStr (dir +:+ stem +:+ "." +:+ ext)) =
    if String.eqb ext "xml" then Ok "xml"%string
    else if existsb (String.eqb ext) ["conf"; "text"; "txt"]%string then Ok "text"%string
    else if String.eqb ext "set" then Ok "set"%string
    else Raise (Builtin "ValueError"
                  ("Unknown file contents from extension: ." +:+ ext)).
Proof.
  intros Hstem Hc Hcdot Hext Hext'. unfold _lformat_byext, os_path_splitext.
  rewrite (splitext_stem_ext dir stem ext c) by done.
  change ("." +:+ ext) with (String "."%char ext).
  change (String.eqb (String "."%char ext) ".xml") with (String.eqb ext "xml").
  destruct (String.eqb ext "xml"); [done|].
  change (existsb (String.eqb (String "."%char ext)) [".conf"; ".text"; ".txt"]%string)
    with (existsb (String.eqb ext) ["conf"; "text"; "txt"]%string).
  destruct (existsb (String.eqb ext) _); [done|].
  change (existsb (String.eqb (String "."%char ext)) [".set"]%string)
    with (String.eqb ext "set" || false).
  rewrite orb_false_r. destruct (String.eqb ext "set"); [done|].
  do 2 f_equal.
Qed.

Lemma lformat_byext_by_suffix_witness :
  _lformat_byext (VStr ("/var/tmp/" +:+ "base.v2" +:+ "." +:+ "conf")) = Ok "text"%string.
Proof.
  apply (lformat_byext_by_suffix "/var/tmp/" "base.v2" "conf" "b").
  - apply (bool_decide_unpack _). vm_compute. exact I.
  - apply (bool_decide_unpack _). vm_compute. exact I.
  - discriminate.
  - apply (bool_decide_unpack _). vm_compute. exact I.
  - apply (bool_decide_unpack _). vm_compute. exact I.
Defined.
